(** * Student mental-health diagnoser: the scoring pipeline, verified

    A shallow embedding of [api/preprocessor.py] (class [DataPreprocessor]),
    [api/predictor.py] (method [MentalHealthPredictor.predict]) and the label
    computation of [api/main.py] (handler [diagnose]).

    Python values are modelled by [pyval]; a [dict] with string keys is a
    [gmap string pyval]; Python floats are IEEE-754 binary64 numbers, that is
    Rocq's primitive [float]; an operation that can raise returns a [result]. *)

From Stdlib Require Import ZArith Floats Lia.
From stdpp Require Import gmap strings list pretty.

Set Warnings "-inexact-float".
Set Default Proof Using "Type".

Local Open Scope string_scope.
Local Open Scope list_scope.

(** ** Python values and exceptions *)

Inductive exn : Set :=
| TypeError
| ValueError
| KeyError
| OverflowError.

Inductive result (A : Type) : Type :=
| Ok (a : A)
| Raise (e : exn).
Arguments Ok {A} a.
Arguments Raise {A} e.

#[global] Instance result_ret : MRet result := fun A a => Ok a.
#[global] Instance result_bind : MBind result := fun A B k r =>
  match r with
  | Ok a => k a
  | Raise e => Raise e
  end.

Definition raises {A} (r : result A) : bool :=
  match r with
  | Ok _ => false
  | Raise _ => true
  end.

(** The scalar values a questionnaire answer or a feature can hold. *)
Inductive pyval : Type :=
| VNone
| VInt (z : Z)
| VFloat (f : float)
| VStr (s : string).

Abbreviation dict := (gmap string pyval).

(** [d.get(k, default)] *)
Definition dict_get (d : dict) (k : string) (dflt : pyval) : pyval :=
  default dflt (d !! k).

(** [table.get(key, default)] for a table with string keys and any scalar
    [key]: a key that is not a string is never found. *)
Definition table_get (table : dict) (key : pyval) (dflt : pyval) : pyval :=
  match key with
  | VStr s => default dflt (table !! s)
  | _ => dflt
  end.

(** [v == 'literal'] *)
Definition py_eq_str (v : pyval) (lit : string) : bool :=
  match v with
  | VStr s => bool_decide (s = lit)
  | _ => false
  end.

(** [needle in hay] on two strings: substring search. *)
Fixpoint is_substring (needle hay : string) : bool :=
  String.prefix needle hay ||
  match hay with
  | EmptyString => false
  | String _ rest => is_substring needle rest
  end.

(** ['literal' in v]: a [TypeError] unless [v] is a string. *)
Definition py_str_in (needle : string) (v : pyval) : result bool :=
  match v with
  | VStr s => Ok (is_substring needle s)
  | _ => Raise TypeError
  end.

(** ** Numbers *)

(** The binary64 number nearest to an integer (round to nearest, ties to
    even); exact for every integer below [2^53] in magnitude. *)
Definition Z2F (z : Z) : float :=
  SF2Prim (binary_normalize prec emax z 0 false).

(** Conversion of a Python [int] to [float]: [OverflowError] when the
    integer is too large for a binary64. *)
Definition int_to_float (z : Z) : result float :=
  let f := Z2F z in
  if is_infinity f then Raise OverflowError else Ok f.

(** Exact comparison [z < c] of an integer with a float, as Python does
    it (no rounding of the integer). *)
Definition Z_lt_float (z : Z) (c : float) : bool :=
  match Prim2SF c with
  | S754_nan => false
  | S754_infinity s => negb s
  | S754_zero _ => (z <? 0)%Z
  | S754_finite s m e =>
      let v := cond_Zopp s (Zpos m) in
      if (0 <=? e)%Z then (z <? v * 2 ^ e)%Z else (z * 2 ^ (- e) <? v)%Z
  end.

(** [v * c] for a float literal [c]. *)
Definition py_mul_float (v : pyval) (c : float) : result float :=
  match v with
  | VInt z => f ← int_to_float z; Ok (f * c)%float
  | VFloat f => Ok (f * c)%float
  | VStr _ | VNone => Raise TypeError
  end.

(** [k - v] for an int literal [k]. *)
Definition py_int_sub (k : Z) (v : pyval) : result pyval :=
  match v with
  | VInt z => Ok (VInt (k - z))
  | VFloat f => Ok (VFloat (Z2F k - f)%float)
  | VStr _ | VNone => Raise TypeError
  end.

(** [v >= k], [v <= k] and [v > k] for a small int literal [k] (exactly
    representable as a float), and [v < c] for a float literal [c]. A
    comparison with NaN is false; a string or [None] on the left raises. *)
Definition py_ge_int (v : pyval) (k : Z) : result bool :=
  match v with
  | VInt z => Ok (k <=? z)%Z
  | VFloat f => Ok (Z2F k <=? f)%float
  | VStr _ | VNone => Raise TypeError
  end.

Definition py_le_int (v : pyval) (k : Z) : result bool :=
  match v with
  | VInt z => Ok (z <=? k)%Z
  | VFloat f => Ok (f <=? Z2F k)%float
  | VStr _ | VNone => Raise TypeError
  end.

Definition py_gt_int (v : pyval) (k : Z) : result bool :=
  match v with
  | VInt z => Ok (k <? z)%Z
  | VFloat f => Ok (Z2F k <? f)%float
  | VStr _ | VNone => Raise TypeError
  end.

Definition py_lt_float (v : pyval) (c : float) : result bool :=
  match v with
  | VInt z => Ok (Z_lt_float z c)
  | VFloat f => Ok (f <? c)%float
  | VStr _ | VNone => Raise TypeError
  end.

Definition is_number (v : pyval) : bool :=
  match v with
  | VInt _ | VFloat _ => true
  | VStr _ | VNone => false
  end.

(** ** Built-ins of the Python runtime

    Parsing a string as a float ([float("3.5")]) and printing a float
    ([f"{x}"]) belong to the interpreter, not to this repository: both are
    taken as given. *)

(** ** Priorities of recommendations (app/streamlit_utils.py)

    [s.lower()] is a built-in as well (it follows the Unicode tables). *)

(** [sorted(l, key=key)]: the built-in sort is stable, and a stable sort
    is determined by the keys; it is modelled by a stable insertion
    sort. *)
Fixpoint insert_by_key {A} (key : A -> nat) (x : A) (l : list A) : list A :=
  match l with
  | [] => [x]
  | y :: rest =>
      if (key x <=? key y)%nat then x :: y :: rest
      else y :: insert_by_key key x rest
  end.

Fixpoint py_sorted {A} (key : A -> nat) (l : list A) : list A :=
  match l with
  | [] => []
  | x :: rest => insert_by_key key x (py_sorted key rest)
  end.

Section Priority.

Variable py_lower : string -> string.

Definition high_priority_keywords : list string :=
  ["urgent"; "immediate"; "crisis"; "professional help";
   "therapist"; "counselor"; "helpline"].

Definition medium_priority_keywords : list string :=
  ["consider"; "recommend"; "suggest"; "important";
   "monitor"; "regular"; "routine"].

Definition get_recommendation_priority (recommendation : string) : nat :=
  let recommendation_lower := py_lower recommendation in
  if existsb (fun keyword => is_substring keyword recommendation_lower)
       high_priority_keywords then 1
  else if existsb (fun keyword => is_substring keyword recommendation_lower)
            medium_priority_keywords then 2
  else 3.

Definition sort_recommendations_by_priority (recommendations : list string)
  : list string :=
  py_sorted get_recommendation_priority recommendations.

End Priority.

(** Stand-ins for the two built-ins, to run the pipeline on concrete
    inputs in which no numerical field holds a string and no float is
    printed: a parser that accepts no string and a printer that prints a
    placeholder. *)
Definition sample_float_of_str (s : string) : option float := None.
Definition sample_float_repr (f : float) : string := "<float>".

Section Pipeline.

Variable float_of_str : string -> option float.
Variable float_repr : float -> string.

(** [float(v)] *)
Definition py_float (v : pyval) : result float :=
  match v with
  | VFloat f => Ok f
  | VInt z => int_to_float z
  | VStr s =>
      match float_of_str s with
      | Some f => Ok f
      | None => Raise ValueError
      end
  | VNone => Raise TypeError
  end.

(** [f"{v}"] *)
Definition py_format (v : pyval) : string :=
  match v with
  | VNone => "None"
  | VInt z => pretty z
  | VFloat f => float_repr f
  | VStr s => s
  end.

(** ** DataPreprocessor (api/preprocessor.py) *)

Definition sleep_mapping : dict :=
  list_to_map
    [("Less than 5 hours", VInt 4);
     ("5-6 hours", VFloat 5.5);
     ("7-8 hours", VFloat 7.5);
     ("More than 8 hours", VInt 9);
     ("Others", VFloat 6.0)].

Definition diet_mapping : dict :=
  list_to_map
    [("Unhealthy", VInt 1);
     ("Moderate", VInt 2);
     ("Healthy", VInt 3);
     ("Others", VInt 2)].

Definition gender_encoder : dict :=
  list_to_map [("Male", VInt 0); ("Female", VInt 1); ("Other", VInt 2)].

Definition profession_encoder : dict :=
  list_to_map
    [("Student", VInt 0); ("Employee", VInt 1); ("Self-employed", VInt 2);
     ("Unemployed", VInt 3); ("Other", VInt 4)].

Definition suicidal_encoder : dict :=
  list_to_map [("No", VInt 0); ("Yes", VInt 1)].

Definition family_encoder : dict :=
  list_to_map [("No", VInt 0); ("Yes", VInt 1)].

Definition numerical_features : list string :=
  ["age"; "academic_pressure"; "work_pressure"; "cgpa";
   "study_satisfaction"; "job_satisfaction"; "work_study_hours";
   "financial_stress"].

Definition feature_mapping : gmap string string :=
  list_to_map
    [("age", "Age");
     ("academic_pressure", "Academic Pressure");
     ("work_pressure", "Work Pressure");
     ("cgpa", "CGPA");
     ("study_satisfaction", "Study Satisfaction");
     ("job_satisfaction", "Job Satisfaction");
     ("work_study_hours", "Work/Study Hours");
     ("financial_stress", "Financial Stress")].

(** [feature_mapping[feature]] *)
Definition feature_name (feature : string) : result string :=
  match feature_mapping !! feature with
  | Some name => Ok name
  | None => Raise KeyError
  end.

(** The body of [_calculate_risk_score] inside its [try]: the sum is
    evaluated from left to right, every product is a float. *)
Definition risk_score_sum (processed_data : dict) : result float :=
  t1 ← py_mul_float (dict_get processed_data "Academic Pressure" (VInt 0)) 0.2;
  t2 ← py_mul_float (dict_get processed_data "Financial Stress" (VInt 0)) 0.2;
  d3 ← py_int_sub 5 (dict_get processed_data "Sleep_Hours" (VFloat 7.5));
  t3 ← py_mul_float d3 0.1;
  d4 ← py_int_sub 4 (dict_get processed_data "Diet_Score" (VInt 2));
  t4 ← py_mul_float d4 0.1;
  t5 ← py_mul_float
         (dict_get processed_data "Have you ever had suicidal thoughts ?_encoded" (VInt 0)) 0.3;
  t6 ← py_mul_float
         (dict_get processed_data "Family History of Mental Illness_encoded" (VInt 0)) 0.1;
  Ok (t1 + t2 + t3 + t4 + t5 + t6)%float.

(** [_calculate_risk_score]: any exception is swallowed and gives [0.0]. *)
Definition _calculate_risk_score (processed_data : dict) : float :=
  match risk_score_sum processed_data with
  | Ok risk_score => risk_score
  | Raise _ => 0.0%float
  end.

(** The loop of [preprocess] over [numerical_features]. *)
Fixpoint copy_numerical (data : dict) (features : list string) (processed : dict)
  : result dict :=
  match features with
  | [] => Ok processed
  | feature :: rest =>
      match data !! feature with
      | Some v =>
          x ← py_float v;
          name ← feature_name feature;
          copy_numerical data rest (<[name := VFloat x]> processed)
      | None =>
          name ← feature_name feature;
          copy_numerical data rest (<[name := VFloat 0.0]> processed)
      end
  end.

(** The categorical part of [preprocess]. *)
Definition encode_categorical (data : dict) (processed : dict) : dict :=
  let sleep_duration := dict_get data "sleep_duration" (VStr "7-8 hours") in
  let processed := <["Sleep_Hours" := table_get sleep_mapping sleep_duration (VFloat 7.5)]> processed in
  let dietary_habits := dict_get data "dietary_habits" (VStr "Moderate") in
  let processed := <["Diet_Score" := table_get diet_mapping dietary_habits (VInt 2)]> processed in
  let gender := dict_get data "gender" (VStr "Male") in
  let processed := <["Gender_encoded" := table_get gender_encoder gender (VInt 0)]> processed in
  let profession := dict_get data "profession" (VStr "Student") in
  let processed := <["Profession_encoded" := table_get profession_encoder profession (VInt 0)]> processed in
  let suicidal_thoughts := dict_get data "suicidal_thoughts" (VStr "No") in
  let processed :=
    <["Have you ever had suicidal thoughts ?_encoded" :=
        table_get suicidal_encoder suicidal_thoughts (VInt 0)]> processed in
  let family_history := dict_get data "family_history" (VStr "No") in
  <["Family History of Mental Illness_encoded" :=
      table_get family_encoder family_history (VInt 0)]> processed.

(** [preprocess]: the [except] clause re-raises, so an exception of the
    body is the exception of the call. *)
Definition preprocess (data : dict) : result dict :=
  processed ← copy_numerical data numerical_features ∅;
  let processed := encode_categorical data processed in
  let risk_score := _calculate_risk_score processed in
  Ok (<["Risk_Score" := VFloat risk_score]> processed).

(** One entry of the list returned by [analyze_risk_factors]. *)
Definition risk_factor_entry (factor : string) (value : pyval)
    (impact description : string) : dict :=
  list_to_map
    [("factor", VStr factor); ("value", value);
     ("impact", VStr impact); ("description", VStr description)].

(** The ten threshold rules of [analyze_risk_factors], in source order.
    Each gives the entries it appends: none or one. *)
Definition rule_academic_pressure (data : dict) : result (list dict) :=
  let academic_pressure := dict_get data "academic_pressure" (VInt 0) in
  fires ← py_ge_int academic_pressure 4;
  if fires : bool then
    high ← py_ge_int academic_pressure 5;
    Ok [risk_factor_entry "High Academic Pressure" academic_pressure
          (if high : bool then "High" else "Medium")
          ("Academic pressure level of " +:+ py_format academic_pressure
             +:+ "/5 indicates significant stress")]
  else Ok [].

Definition rule_financial_stress (data : dict) : result (list dict) :=
  let financial_stress := dict_get data "financial_stress" (VInt 0) in
  fires ← py_ge_int financial_stress 4;
  if fires : bool then
    high ← py_ge_int financial_stress 5;
    Ok [risk_factor_entry "High Financial Stress" financial_stress
          (if high : bool then "High" else "Medium")
          ("Financial stress level of " +:+ py_format financial_stress
             +:+ "/5 indicates significant financial pressure")]
  else Ok [].

Definition rule_sleep (data : dict) : result (list dict) :=
  let sleep_duration := dict_get data "sleep_duration" (VStr "7-8 hours") in
  if py_eq_str sleep_duration "Less than 5 hours" || py_eq_str sleep_duration "5-6 hours" then
    Ok [risk_factor_entry "Insufficient Sleep" sleep_duration
          (if py_eq_str sleep_duration "Less than 5 hours" then "High" else "Medium")
          ("Sleep duration of " +:+ py_format sleep_duration
             +:+ " may contribute to mental health issues")]
  else Ok [].

Definition rule_diet (data : dict) : result (list dict) :=
  let dietary_habits := dict_get data "dietary_habits" (VStr "Moderate") in
  if py_eq_str dietary_habits "Unhealthy" then
    Ok [risk_factor_entry "Unhealthy Diet" dietary_habits "Medium"
          "Unhealthy dietary habits may negatively impact mental health"]
  else Ok [].

Definition rule_suicidal_thoughts (data : dict) : result (list dict) :=
  let suicidal_thoughts := dict_get data "suicidal_thoughts" (VStr "No") in
  if py_eq_str suicidal_thoughts "Yes" then
    Ok [risk_factor_entry "History of Suicidal Thoughts" suicidal_thoughts "Critical"
          "Previous suicidal thoughts indicate high risk and require immediate attention"]
  else Ok [].

Definition rule_family_history (data : dict) : result (list dict) :=
  let family_history := dict_get data "family_history" (VStr "No") in
  if py_eq_str family_history "Yes" then
    Ok [risk_factor_entry "Family History of Mental Illness" family_history "Medium"
          "Family history of mental illness increases risk of developing similar conditions"]
  else Ok [].

Definition rule_work_pressure (data : dict) : result (list dict) :=
  let work_pressure := dict_get data "work_pressure" (VInt 0) in
  fires ← py_ge_int work_pressure 4;
  if fires : bool then
    high ← py_ge_int work_pressure 5;
    Ok [risk_factor_entry "High Work Pressure" work_pressure
          (if high : bool then "High" else "Medium")
          ("Work pressure level of " +:+ py_format work_pressure
             +:+ "/5 indicates significant workplace stress")]
  else Ok [].

Definition rule_study_satisfaction (data : dict) : result (list dict) :=
  let study_satisfaction := dict_get data "study_satisfaction" (VInt 0) in
  fires ← py_le_int study_satisfaction 2;
  if fires : bool then
    Ok [risk_factor_entry "Low Study Satisfaction" study_satisfaction "Medium"
          ("Study satisfaction level of " +:+ py_format study_satisfaction
             +:+ "/5 indicates dissatisfaction with academic life")]
  else Ok [].

Definition rule_job_satisfaction (data : dict) : result (list dict) :=
  let job_satisfaction := dict_get data "job_satisfaction" (VInt 0) in
  low ← py_le_int job_satisfaction 2;
  fires ← (if low : bool then py_gt_int job_satisfaction 0 else Ok false);
  if fires : bool then
    Ok [risk_factor_entry "Low Job Satisfaction" job_satisfaction "Medium"
          ("Job satisfaction level of " +:+ py_format job_satisfaction
             +:+ "/5 indicates workplace dissatisfaction")]
  else Ok [].

Definition rule_cgpa (data : dict) : result (list dict) :=
  let cgpa := dict_get data "cgpa" (VInt 0) in
  fires ← py_lt_float cgpa 6.0;
  if fires : bool then
    Ok [risk_factor_entry "Low Academic Performance" cgpa "Medium"
          ("CGPA of " +:+ py_format cgpa
             +:+ " may indicate academic struggles affecting mental health")]
  else Ok [].

(** The body of [analyze_risk_factors] inside its [try]. *)
Definition analyze_body (data : dict) : result (list dict) :=
  let risk_factors : list dict := [] in
  emitted ← rule_academic_pressure data;
  let risk_factors := risk_factors ++ emitted in
  emitted ← rule_financial_stress data;
  let risk_factors := risk_factors ++ emitted in
  emitted ← rule_sleep data;
  let risk_factors := risk_factors ++ emitted in
  emitted ← rule_diet data;
  let risk_factors := risk_factors ++ emitted in
  emitted ← rule_suicidal_thoughts data;
  let risk_factors := risk_factors ++ emitted in
  emitted ← rule_family_history data;
  let risk_factors := risk_factors ++ emitted in
  emitted ← rule_work_pressure data;
  let risk_factors := risk_factors ++ emitted in
  emitted ← rule_study_satisfaction data;
  let risk_factors := risk_factors ++ emitted in
  emitted ← rule_job_satisfaction data;
  let risk_factors := risk_factors ++ emitted in
  emitted ← rule_cgpa data;
  let risk_factors := risk_factors ++ emitted in
  Ok risk_factors.

(** [analyze_risk_factors]: one [try] around all the rules, and
    [return []] in its [except] clause. *)
Definition analyze_risk_factors (data : dict) : list dict :=
  match analyze_body data with
  | Ok risk_factors => risk_factors
  | Raise _ => []
  end.

(** The seed list of [generate_recommendations], by probability band. *)
Definition seed_recommendations (probability : float) : list string :=
  if (0.7 <? probability)%float then
    ["Seek immediate professional help from a mental health counselor or therapist";
     "Consider reaching out to a trusted friend or family member for support";
     "Contact a mental health helpline if you're in crisis"]
  else if (0.4 <? probability)%float then
    ["Consider speaking with a mental health professional for assessment";
     "Focus on stress management techniques and self-care";
     "Maintain regular sleep and exercise routines"]
  else
    ["Continue maintaining good mental health practices";
     "Stay connected with friends and family";
     "Engage in activities you enjoy"].

(** [risk_factor['factor']] *)
Definition dict_index (d : dict) (k : string) : result pyval :=
  match d !! k with
  | Some v => Ok v
  | None => Raise KeyError
  end.

(** The [if]/[elif] chain on one risk factor: the strings it appends. *)
Definition factor_recommendations (risk_factor : dict) : result (list string) :=
  factor ← dict_index risk_factor "factor";
  c ← py_str_in "Academic Pressure" factor;
  if c : bool then
    Ok ["Consider academic counseling or tutoring to manage study stress";
        "Break down large assignments into smaller, manageable tasks"]
  else
  c ← py_str_in "Financial Stress" factor;
  if c : bool then
    Ok ["Seek financial counseling or speak with a financial advisor";
        "Look into scholarships, grants, or part-time work opportunities"]
  else
  c ← py_str_in "Sleep" factor;
  if c : bool then
    Ok ["Establish a consistent sleep schedule and bedtime routine";
        "Avoid screens 1 hour before bedtime and create a relaxing environment"]
  else
  c ← py_str_in "Diet" factor;
  if c : bool then
    Ok ["Focus on a balanced diet with regular meals";
        "Consider consulting a nutritionist for dietary guidance"]
  else
  c ← py_str_in "Suicidal Thoughts" factor;
  if c : bool then
    Ok ["URGENT: Contact a mental health professional immediately";
        "Call a suicide prevention hotline if you're in crisis"]
  else
  c ← py_str_in "Family History" factor;
  if c : bool then
    Ok ["Be aware of your family history and monitor your mental health regularly";
        "Consider preventive mental health counseling"]
  else
  c ← py_str_in "Work Pressure" factor;
  if c : bool then
    Ok ["Discuss workload with your supervisor or academic advisor";
        "Practice time management and delegation techniques"]
  else
  c ← py_str_in "Satisfaction" factor;
  if c : bool then
    Ok ["Explore new interests or hobbies to increase life satisfaction";
        "Consider career counseling or academic guidance"]
  else
  c ← py_str_in "Academic Performance" factor;
  if c : bool then
    Ok ["Seek academic support services or tutoring";
        "Meet with academic advisors to discuss study strategies"]
  else Ok [].

(** The loop over [risk_factors]. *)
Fixpoint extend_recommendations (risk_factors : list dict)
    (recommendations : list string) : result (list string) :=
  match risk_factors with
  | [] => Ok recommendations
  | risk_factor :: rest =>
      added ← factor_recommendations risk_factor;
      extend_recommendations rest (recommendations ++ added)
  end.

(** The loop that removes duplicates, with its [seen] set and its
    [unique_recommendations] list. *)
Fixpoint unique_loop (recommendations : list string) (seen : gset string)
    (unique_recommendations : list string) : list string :=
  match recommendations with
  | [] => unique_recommendations
  | rec :: rest =>
      if decide (rec ∈ seen) then unique_loop rest seen unique_recommendations
      else unique_loop rest ({[rec]} ∪ seen) (unique_recommendations ++ [rec])
  end.

(** The list before duplicates are removed. *)
Definition collect_recommendations (probability : float) (risk_factors : list dict)
  : result (list string) :=
  extend_recommendations risk_factors (seed_recommendations probability).

Definition fallback_recommendation : string :=
  "Please consult with a mental health professional for personalized advice".

(** [generate_recommendations]; [data] is not read by the source. *)
Definition generate_recommendations (data : dict) (probability : float)
    (risk_factors : list dict) : list string :=
  match collect_recommendations probability risk_factors with
  | Ok recommendations => take 10 (unique_loop recommendations ∅ [])
  | Raise _ => [fallback_recommendation]
  end.

(** ** MentalHealthPredictor (api/predictor.py)

    The fitted scaler and classifier are artifacts loaded from disk:
    opaque functions that may raise. The scaler receives the one-row
    frame, that is the column names and the row. *)

Record classifier : Type := {
  clf_predict : list float -> result Z;
  clf_predict_proba : list float -> result float
}.

Record MentalHealthPredictor : Type := {
  model : option classifier;
  scaler : option (list string -> list pyval -> result (list float));
  feature_columns : list string
}.

(** The columns [_load_models] falls back on. *)
Definition default_feature_columns : list string :=
  ["Age"; "Academic Pressure"; "Work Pressure"; "CGPA"; "Study Satisfaction";
   "Job Satisfaction"; "Work/Study Hours"; "Financial Stress"; "Sleep_Hours";
   "Diet_Score"; "Risk_Score"; "Gender_encoded"; "Profession_encoded";
   "Have you ever had suicidal thoughts ?_encoded";
   "Family History of Mental Illness_encoded"].

(** The loop of [predict] that builds [feature_vector]. *)
Definition build_feature_vector (columns : list string) (processed_data : dict)
  : list pyval :=
  map (fun feature =>
         match processed_data !! feature with
         | Some v => v
         | None => VFloat 0.0
         end) columns.

(** [predict]: class and probability of the positive class. *)
Definition predict (self : MentalHealthPredictor) (processed_data : dict)
  : result (Z * float) :=
  match model self, scaler self with
  | Some clf, Some transform =>
      let feature_vector := build_feature_vector (feature_columns self) processed_data in
      features_scaled ← transform (feature_columns self) feature_vector;
      prediction ← clf_predict clf features_scaled;
      probability ← clf_predict_proba clf features_scaled;
      Ok (prediction, probability)
  | _, _ => Raise ValueError
  end.

(** ** The handler [diagnose] (api/main.py) *)

Definition confidence_label (probability : float) : string :=
  if (0.8 <? probability)%float || (probability <? 0.2)%float then "High"
  else if (0.6 <? probability)%float || (probability <? 0.4)%float then "Medium"
  else "Low".

Definition risk_level_label (probability : float) : string :=
  if (0.7 <? probability)%float then "High"
  else if (0.4 <? probability)%float then "Medium"
  else "Low".

Record DiagnosisResponse : Type := {
  prediction : Z;
  probability : float;
  confidence : string;
  risk_level : string;
  risk_factors : list dict;
  recommendations : list string;
  timestamp : string
}.

(** Construction of the response: the model checks [0 <= probability <= 1]
    and raises a validation error, a [ValueError], otherwise. *)
Definition make_response (prediction : Z) (probability : float)
    (confidence risk_level : string) (risk_factors : list dict)
    (recommendations : list string) (timestamp : string) : result DiagnosisResponse :=
  if (0 <=? probability)%float && (probability <=? 1)%float then
    Ok {| prediction := prediction; probability := probability;
          confidence := confidence; risk_level := risk_level;
          risk_factors := risk_factors; recommendations := recommendations;
          timestamp := timestamp |}
  else Raise ValueError.

(** The body of [diagnose] once both globals are loaded; [now] is the
    timestamp read from the clock. *)
Definition diagnose_body (predictor : MentalHealthPredictor) (now : string)
    (request : dict) : result DiagnosisResponse :=
  processed_data ← preprocess request;
  prediction_result ← predict predictor processed_data;
  let risk_factors := analyze_risk_factors request in
  let recommendations :=
    generate_recommendations request prediction_result.2 risk_factors in
  let confidence := confidence_label prediction_result.2 in
  let risk_level := risk_level_label prediction_result.2 in
  make_response prediction_result.1 prediction_result.2 confidence risk_level
    risk_factors recommendations now.

(** [diagnose]: the response, or the status code of the HTTP error. A
    [ValueError] gives 400, every other exception 500; the 503 raised when
    a global is missing is itself caught by the last [except] clause and
    leaves as a 500. *)
Definition diagnose (predictor : option MentalHealthPredictor)
    (preprocessor_loaded : bool) (now : string) (request : dict)
  : Z + DiagnosisResponse :=
  match predictor, preprocessor_loaded with
  | Some p, true =>
      match diagnose_body p now request with
      | Ok response => inr response
      | Raise ValueError => inl 400%Z
      | Raise _ => inl 500%Z
      end
  | _, _ => inl 500%Z
  end.

(** ** Notions used by the statements *)

(** [numeric_value data feature]: what the loop of [preprocess] stores for
    one numerical feature. *)
Definition numeric_value (data : dict) (feature : string) : result float :=
  match data !! feature with
  | Some v => py_float v
  | None => Ok 0.0%float
  end.

(** The processed dictionary after the loop, from the eight stored values. *)
Definition numeric_part (age academic_pressure work_pressure cgpa study_satisfaction
    job_satisfaction work_study_hours financial_stress : float) : dict :=
  <["Financial Stress" := VFloat financial_stress]>
  (<["Work/Study Hours" := VFloat work_study_hours]>
  (<["Job Satisfaction" := VFloat job_satisfaction]>
  (<["Study Satisfaction" := VFloat study_satisfaction]>
  (<["CGPA" := VFloat cgpa]>
  (<["Work Pressure" := VFloat work_pressure]>
  (<["Academic Pressure" := VFloat academic_pressure]>
  (<["Age" := VFloat age]> ∅))))))).

(** The numeric reading of a feature: an [int] counts as the float it
    converts to. *)
Definition as_float (v : pyval) : option float :=
  match v with
  | VInt z => Some (Z2F z)
  | VFloat f => Some f
  | VStr _ | VNone => None
  end.

Definition feature_value (processed : dict) (name : string) : option float :=
  v ← processed !! name; as_float v.

(** [has_number d k n]: key [k] holds the number [n], as an [int] or as a
    [float]. *)
Definition has_number (d : dict) (k : string) (n : Z) : Prop :=
  d !! k = Some (VInt n) \/ d !! k = Some (VFloat (Z2F n)).

(** The linear formula of the specification, in its operand order. *)
Definition risk_formula (academic_pressure financial_stress sleep_hours diet_score
    suicidal_encoded family_encoded : float) : float :=
  (0.2 * academic_pressure + 0.2 * financial_stress + 0.1 * (5 - sleep_hours)
   + 0.1 * (4 - diet_score) + 0.3 * suicidal_encoded + 0.1 * family_encoded)%float.

(** What the handler receives: a request that passed the validation of
    [DiagnosisRequest] (every field present, numbers as floats within
    their bounds, categories within their enumerations). *)
Definition float_field (request : dict) (k : string) (lo hi : float) : bool :=
  match request !! k with
  | Some (VFloat f) => (lo <=? f)%float && (f <=? hi)%float
  | _ => false
  end.

Definition choice_field (request : dict) (k : string) (choices : list string) : bool :=
  match request !! k with
  | Some (VStr s) => bool_decide (s ∈ choices)
  | _ => false
  end.

Definition text_field (request : dict) (k : string) : bool :=
  match request !! k with
  | Some (VStr _) => true
  | _ => false
  end.

Definition valid_request (request : dict) : bool :=
  float_field request "age" 16 100
  && choice_field request "gender" ["Male"; "Female"; "Other"]
  && float_field request "academic_pressure" 1 5
  && float_field request "work_pressure" 1 5
  && float_field request "cgpa" 0 10
  && float_field request "study_satisfaction" 1 5
  && float_field request "job_satisfaction" 1 5
  && float_field request "work_study_hours" 0 24
  && float_field request "financial_stress" 1 5
  && choice_field request "sleep_duration"
       ["Less than 5 hours"; "5-6 hours"; "7-8 hours"; "More than 8 hours"; "Others"]
  && choice_field request "dietary_habits" ["Unhealthy"; "Moderate"; "Healthy"; "Others"]
  && choice_field request "suicidal_thoughts" ["Yes"; "No"]
  && choice_field request "family_history" ["Yes"; "No"]
  && text_field request "city"
  && text_field request "profession"
  && text_field request "degree".

(** The keys [_calculate_risk_score] reads. *)
Definition risk_score_inputs : list string :=
  ["Academic Pressure"; "Financial Stress"; "Sleep_Hours"; "Diet_Score";
   "Have you ever had suicidal thoughts ?_encoded";
   "Family History of Mental Illness_encoded"].

(** The rules of [analyze_risk_factors] as a list, with the name each one
    gives its factor and the impacts it can give. *)
Definition risk_rules : list (dict -> result (list dict)) :=
  [rule_academic_pressure; rule_financial_stress; rule_sleep; rule_diet;
   rule_suicidal_thoughts; rule_family_history; rule_work_pressure;
   rule_study_satisfaction; rule_job_satisfaction; rule_cgpa].

Definition rule_order : list string :=
  ["High Academic Pressure"; "High Financial Stress"; "Insufficient Sleep";
   "Unhealthy Diet"; "History of Suicidal Thoughts";
   "Family History of Mental Illness"; "High Work Pressure";
   "Low Study Satisfaction"; "Low Job Satisfaction"; "Low Academic Performance"].

Definition rule_table : list ((dict -> result (list dict)) * string * list string) :=
  [(rule_academic_pressure, "High Academic Pressure", ["High"; "Medium"]);
   (rule_financial_stress, "High Financial Stress", ["High"; "Medium"]);
   (rule_sleep, "Insufficient Sleep", ["High"; "Medium"]);
   (rule_diet, "Unhealthy Diet", ["Medium"]);
   (rule_suicidal_thoughts, "History of Suicidal Thoughts", ["Critical"]);
   (rule_family_history, "Family History of Mental Illness", ["Medium"]);
   (rule_work_pressure, "High Work Pressure", ["High"; "Medium"]);
   (rule_study_satisfaction, "Low Study Satisfaction", ["Medium"]);
   (rule_job_satisfaction, "Low Job Satisfaction", ["Medium"]);
   (rule_cgpa, "Low Academic Performance", ["Medium"])].

(** Running a list of rules one after the other, as the body does. *)
Fixpoint run_rules (rules : list (dict -> result (list dict))) (data : dict)
  : result (list dict) :=
  match rules with
  | [] => Ok []
  | rule :: rest =>
      emitted ← rule data;
      others ← run_rules rest data;
      Ok (emitted ++ others)
  end.

(** What a rule contributes when it does not raise. *)
Definition emitted_by (rule : dict -> result (list dict)) (data : dict) : list dict :=
  match rule data with
  | Ok l => l
  | Raise _ => []
  end.

(** A rule emits nothing, or one entry with the given name and one of
    the given impacts. *)
Definition emits_at_most (name : string) (impacts : list string) (l : list dict) : Prop :=
  l = [] \/
  exists v impact description,
    impact ∈ impacts /\ l = [risk_factor_entry name v impact description].

Definition rule_shape (entry : (dict -> result (list dict)) * string * list string) : Prop :=
  forall data l, entry.1.1 data = Ok l -> emits_at_most entry.1.2 entry.2 l.

(** Reading the entries of a result. *)
Definition factor_names (l : list dict) : list pyval :=
  map (fun risk_factor => dict_get risk_factor "factor" VNone) l.

Definition factor_and_impact (risk_factor : dict) : pyval * pyval :=
  (dict_get risk_factor "factor" VNone, dict_get risk_factor "impact" VNone).



(** The numerical answers the rules compare are numbers when present. *)
Definition compared_fields : list string :=
  ["academic_pressure"; "financial_stress"; "work_pressure";
   "study_satisfaction"; "job_satisfaction"; "cgpa"].

Definition raw_numbers_ok (data : dict) : bool :=
  forallb (fun k => match data !! k with
                    | Some v => is_number v
                    | None => true
                    end) compared_fields.

(** The specification of duplicate removal: every string is kept at its
    first occurrence and the order is unchanged. *)
Fixpoint first_seen (l : list string) : list string :=
  match l with
  | [] => []
  | x :: rest => x :: filter (fun y => y <> x) (first_seen rest)
  end.

(** A feature dictionary completed with [0.0] for every expected column
    it lacks. *)
Fixpoint complete_features (columns : list string) (processed_data : dict) : dict :=
  match columns with
  | [] => processed_data
  | feature :: rest =>
      let completed := complete_features rest processed_data in
      match completed !! feature with
      | Some _ => completed
      | None => <[feature := VFloat 0.0]> completed
      end
  end.

(** A predictor to run [predict] on: a scaler fitted on the default
    columns that leaves numbers unchanged (mean 0, scale 1) and rejects
    other columns or values, and a classifier with a constant answer. *)
Fixpoint floats_of_row (row : list pyval) : result (list float) :=
  match row with
  | [] => Ok []
  | v :: rest =>
      x ← match v with
          | VFloat f => Ok f
          | VInt z => int_to_float z
          | VStr _ | VNone => Raise ValueError
          end;
      xs ← floats_of_row rest;
      Ok (x :: xs)
  end.

Definition unit_scaler (columns : list string) (row : list pyval) : result (list float) :=
  if bool_decide (columns = default_feature_columns) then floats_of_row row
  else Raise ValueError.

Definition constant_classifier : classifier :=
  {| clf_predict := fun _ => Ok 0%Z; clf_predict_proba := fun _ => Ok 0.5%float |}.

Definition sample_predictor : MentalHealthPredictor :=
  {| model := Some constant_classifier;
     scaler := Some unit_scaler;
     feature_columns := default_feature_columns |}.

(** What [preprocess] does after its loop. *)
Definition finish_preprocess (data : dict) (processed : dict) : dict :=
  let processed := encode_categorical data processed in
  <["Risk_Score" := VFloat (_calculate_risk_score processed)]> processed.

(** ** Concrete inputs *)

(** The answers of the end-to-end scenario of the specification. *)
Definition scenario_raw : dict :=
  list_to_map
    [("academic_pressure", VInt 5); ("financial_stress", VInt 5);
     ("sleep_duration", VStr "Less than 5 hours");
     ("dietary_habits", VStr "Unhealthy");
     ("suicidal_thoughts", VStr "Yes"); ("family_history", VStr "Yes");
     ("work_pressure", VInt 3); ("study_satisfaction", VInt 3);
     ("job_satisfaction", VInt 0); ("cgpa", VFloat 7.0)].

(** The features of the reproducibility example of the specification. *)
Definition scenario_processed : dict :=
  list_to_map
    [("Academic Pressure", VFloat 5); ("Financial Stress", VFloat 5);
     ("Sleep_Hours", VInt 4); ("Diet_Score", VInt 1);
     ("Have you ever had suicidal thoughts ?_encoded", VInt 1);
     ("Family History of Mental Illness_encoded", VInt 1)].

(** A request that passes the validation of [DiagnosisRequest]. *)
Definition sample_request : dict :=
  list_to_map
    [("age", VFloat 21); ("gender", VStr "Female");
     ("academic_pressure", VFloat 5); ("work_pressure", VFloat 3);
     ("cgpa", VFloat 7.5); ("study_satisfaction", VFloat 2);
     ("job_satisfaction", VFloat 1); ("work_study_hours", VFloat 9);
     ("financial_stress", VFloat 4);
     ("sleep_duration", VStr "5-6 hours"); ("dietary_habits", VStr "Moderate");
     ("suicidal_thoughts", VStr "No"); ("family_history", VStr "Yes");
     ("city", VStr "Lahore"); ("profession", VStr "Student");
     ("degree", VStr "BSc")].

(** Answers with a high academic pressure and a CGPA of [None]. *)
Definition malformed_cgpa_raw : dict :=
  list_to_map [("academic_pressure", VInt 5); ("cgpa", VNone)].

(** Answers whose age is [None]. *)
Definition malformed_age_raw : dict :=
  list_to_map [("age", VNone); ("academic_pressure", VFloat 3)].

(** Features in which the academic pressure is a string. *)
Definition malformed_processed : dict :=
  list_to_map [("Academic Pressure", VStr "high"); ("Financial Stress", VFloat 2)].

(** ** The questionnaire application (app/streamlit_app.py) *)

(** [make_prediction]: [loaded] is what [load_models] returned (the
    predictor, or nothing when loading failed), [answers] the answers of
    the session, [now] the timestamp. The dictionary it returns has the
    seven keys of [DiagnosisResponse]; every exception of the body ends
    in [return None]. *)
Definition make_prediction (loaded : option MentalHealthPredictor) (now : string)
    (answers : dict) : option DiagnosisResponse :=
  match loaded with
  | None => None
  | Some predictor =>
      match
        (processed_data ← preprocess answers;
         prediction_result ← predict predictor processed_data;
         let risk_factors := analyze_risk_factors answers in
         let recommendations :=
           generate_recommendations answers prediction_result.2 risk_factors in
         let probability := prediction_result.2 in
         let confidence := confidence_label probability in
         let risk_level := risk_level_label probability in
         Ok {| prediction := prediction_result.1; probability := probability;
               confidence := confidence; risk_level := risk_level;
               risk_factors := risk_factors; recommendations := recommendations;
               timestamp := now |})
      with
      | Ok result => Some result
      | Raise _ => None
      end
  end.

(** The sample answers of app/test_app.py. *)
Definition test_sample_data : dict :=
  list_to_map
    [("age", VInt 22); ("gender", VStr "Female");
     ("academic_pressure", VInt 4); ("work_pressure", VInt 3);
     ("cgpa", VFloat 8.5); ("study_satisfaction", VInt 3);
     ("job_satisfaction", VStr "Not Applicable");
     ("work_study_hours", VInt 6); ("financial_stress", VInt 2);
     ("sleep_duration", VStr "7-8 hours"); ("dietary_habits", VStr "Healthy");
     ("suicidal_thoughts", VStr "No"); ("family_history", VStr "No");
     ("city", VStr "Mumbai"); ("profession", VStr "Student");
     ("degree", VStr "Bachelor's")].

(** ** The helpers of the application (app/streamlit_utils.py) *)

(** [bool(v)] *)
Definition py_truthy (v : pyval) : bool :=
  match v with
  | VNone => false
  | VInt z => negb (z =? 0)%Z
  | VFloat f => negb (f =? 0)%float
  | VStr s => negb (bool_decide (s = ""))
  end.

(** [key in answers] for a scalar key: only a string can be a key. *)
Definition py_in_dict (key : pyval) (d : dict) : bool :=
  match key with
  | VStr s => bool_decide (is_Some (d !! s))
  | _ => false
  end.

(** [answers[key]] *)
Definition py_index (d : dict) (key : pyval) : result pyval :=
  match key with
  | VStr s => dict_index d s
  | _ => Raise KeyError
  end.

(** The loop of [validate_answers], with its [missing] list. *)
Fixpoint validate_loop (answers : dict) (questions : list dict) (missing : list pyval)
  : result (list pyval) :=
  match questions with
  | [] => Ok missing
  | question :: rest =>
      id ← dict_index question "id";
      if negb (py_in_dict id answers) then
        validate_loop answers rest (missing ++ [id])
      else
        type ← dict_index question "type";
        if py_eq_str type "text_input" then
          answer ← py_index answers id;
          if negb (py_truthy answer) then validate_loop answers rest (missing ++ [id])
          else validate_loop answers rest missing
        else validate_loop answers rest missing
  end.

Definition validate_answers (answers : dict) (questions : list dict)
  : result (list pyval) :=
  validate_loop answers questions [].

(** Whether a question counts as answered: its id is a key of the
    answers and, for a text input, the answer is not empty. *)
Definition is_answered (answers : dict) (question : dict) : bool :=
  match question !! "id" with
  | Some (VStr s) =>
      match answers !! s with
      | Some answer =>
          match question !! "type" with
          | Some type => if py_eq_str type "text_input" then py_truthy answer else true
          | None => true
          end
      | None => false
      end
  | _ => false
  end.

(** ** Notions used by the further properties *)

(** The fields of the raw answers that [preprocess] reads. *)
Definition preprocess_fields : list string :=
  numerical_features ++
  ["sleep_duration"; "dietary_habits"; "gender"; "profession";
   "suicidal_thoughts"; "family_history"].



(** The seed advice by risk level label. *)
Definition seed_for_level (level : string) : list string :=
  if bool_decide (level = "High") then
    ["Seek immediate professional help from a mental health counselor or therapist";
     "Consider reaching out to a trusted friend or family member for support";
     "Contact a mental health helpline if you're in crisis"]
  else if bool_decide (level = "Medium") then
    ["Consider speaking with a mental health professional for assessment";
     "Focus on stress management techniques and self-care";
     "Maintain regular sleep and exercise routines"]
  else
    ["Continue maintaining good mental health practices";
     "Stay connected with friends and family";
     "Engage in activities you enjoy"].


(** Further concrete inputs. *)

(** The sample request with another city and degree. *)
Definition relocated_request : dict :=
  <["city" := VStr "Karachi"]> (<["degree" := VStr "MSc"]> sample_request).


(** The features of the scenario with one more key. *)
Definition annotated_processed : dict :=
  <["Notes" := VStr "second visit"]> scenario_processed.

(** Two questions, and answers that leave the text input empty and
    answer the number with 0. *)
Definition sample_questions : list dict :=
  [list_to_map [("id", VStr "city"); ("type", VStr "text_input")];
   list_to_map [("id", VStr "age"); ("type", VStr "number_input")]].

Definition sample_answers : dict :=
  list_to_map [("city", VStr ""); ("age", VInt 0)].

(** ** Tactics *)

(** Forget the built-ins where a statement does not depend on them. *)
Ltac drop_builtins := try clear float_repr; try clear float_of_str.

Ltac eval_feature_name :=
  repeat match goal with
    | |- context [feature_name ?f] =>
        let r := eval vm_compute in (feature_name f) in
        replace (feature_name f) with r by (vm_compute; reflexivity)
    end.

(** ** The feature mapper: shape of [preprocess] *)

Lemma copy_numerical_cons data feature rest processed :
  copy_numerical data (feature :: rest) processed =
  (x ← numeric_value data feature;
   name ← feature_name feature;
   copy_numerical data rest (<[name := VFloat x]> processed)).
Proof.
  unfold numeric_value. simpl. destruct (data !! feature); reflexivity.
Qed.

Lemma preprocess_chain data :
  preprocess data =
  (x1 ← numeric_value data "age";
   x2 ← numeric_value data "academic_pressure";
   x3 ← numeric_value data "work_pressure";
   x4 ← numeric_value data "cgpa";
   x5 ← numeric_value data "study_satisfaction";
   x6 ← numeric_value data "job_satisfaction";
   x7 ← numeric_value data "work_study_hours";
   x8 ← numeric_value data "financial_stress";
   Ok (finish_preprocess data (numeric_part x1 x2 x3 x4 x5 x6 x7 x8))).
Proof.
  unfold preprocess, numerical_features.
  rewrite copy_numerical_cons. eval_feature_name.
  destruct (numeric_value data "age") as [x1|]; [|reflexivity].
  cbn [mbind result_bind]. rewrite copy_numerical_cons. eval_feature_name.
  destruct (numeric_value data "academic_pressure") as [x2|]; [|reflexivity].
  cbn [mbind result_bind]. rewrite copy_numerical_cons. eval_feature_name.
  destruct (numeric_value data "work_pressure") as [x3|]; [|reflexivity].
  cbn [mbind result_bind]. rewrite copy_numerical_cons. eval_feature_name.
  destruct (numeric_value data "cgpa") as [x4|]; [|reflexivity].
  cbn [mbind result_bind]. rewrite copy_numerical_cons. eval_feature_name.
  destruct (numeric_value data "study_satisfaction") as [x5|]; [|reflexivity].
  cbn [mbind result_bind]. rewrite copy_numerical_cons. eval_feature_name.
  destruct (numeric_value data "job_satisfaction") as [x6|]; [|reflexivity].
  cbn [mbind result_bind]. rewrite copy_numerical_cons. eval_feature_name.
  destruct (numeric_value data "work_study_hours") as [x7|]; [|reflexivity].
  cbn [mbind result_bind]. rewrite copy_numerical_cons. eval_feature_name.
  destruct (numeric_value data "financial_stress") as [x8|]; [|reflexivity].
  reflexivity.
Qed.

Lemma preprocess_inv data processed :
  preprocess data = Ok processed ->
  exists x1 x2 x3 x4 x5 x6 x7 x8,
    numeric_value data "age" = Ok x1 /\
    numeric_value data "academic_pressure" = Ok x2 /\
    numeric_value data "work_pressure" = Ok x3 /\
    numeric_value data "cgpa" = Ok x4 /\
    numeric_value data "study_satisfaction" = Ok x5 /\
    numeric_value data "job_satisfaction" = Ok x6 /\
    numeric_value data "work_study_hours" = Ok x7 /\
    numeric_value data "financial_stress" = Ok x8 /\
    processed = finish_preprocess data (numeric_part x1 x2 x3 x4 x5 x6 x7 x8).
Proof.
  rewrite preprocess_chain. intros H.
  destruct (numeric_value data "age") as [x1|]; [|discriminate H].
  destruct (numeric_value data "academic_pressure") as [x2|]; [|discriminate H].
  destruct (numeric_value data "work_pressure") as [x3|]; [|discriminate H].
  destruct (numeric_value data "cgpa") as [x4|]; [|discriminate H].
  destruct (numeric_value data "study_satisfaction") as [x5|]; [|discriminate H].
  destruct (numeric_value data "job_satisfaction") as [x6|]; [|discriminate H].
  destruct (numeric_value data "work_study_hours") as [x7|]; [|discriminate H].
  destruct (numeric_value data "financial_stress") as [x8|]; [|discriminate H].
  cbn [mbind result_bind] in H. injection H as <-.
  exists x1, x2, x3, x4, x5, x6, x7, x8. repeat split; reflexivity.
Qed.

Lemma elem_of_numerical_features feature :
  feature ∈ numerical_features ->
  feature = "age" \/ feature = "academic_pressure" \/ feature = "work_pressure" \/
  feature = "cgpa" \/ feature = "study_satisfaction" \/ feature = "job_satisfaction" \/
  feature = "work_study_hours" \/ feature = "financial_stress".
Proof.
  drop_builtins.
  unfold numerical_features. rewrite !elem_of_cons, elem_of_nil. tauto.
Qed.

(** [preprocess] raises exactly when the coercion of a numerical field
    raises, and then with an exception of such a coercion. *)
Lemma preprocess_raises data e :
  preprocess data = Raise e ->
  exists feature, feature ∈ numerical_features /\ numeric_value data feature = Raise e.
Proof.
  drop_builtins.
  rewrite preprocess_chain. unfold numerical_features. intros H.
  repeat match type of H with
    | context [numeric_value data ?f] =>
        destruct (numeric_value data f) eqn:?; cbn [mbind result_bind] in H;
        [| injection H as <-; exists f; split; [set_solver | assumption]]
    end.
  discriminate H.
Qed.

Lemma numeric_raise_preprocess data feature e :
  feature ∈ numerical_features ->
  numeric_value data feature = Raise e ->
  exists e', preprocess data = Raise e'.
Proof.
  intros Hin Hraise. rewrite preprocess_chain.
  apply elem_of_numerical_features in Hin.
  repeat match goal with
    | |- context [numeric_value data ?f] =>
        destruct (numeric_value data f) eqn:?; cbn [mbind result_bind];
        [| eexists; reflexivity]
    end.
  repeat destruct Hin as [-> | Hin]; try subst feature; congruence.
Qed.

Lemma preprocess_returns data :
  (forall feature, feature ∈ numerical_features ->
     raises (numeric_value data feature) = false) ->
  exists processed, preprocess data = Ok processed.
Proof.
  intros Hok. destruct (preprocess data) as [processed|e] eqn:Hp; [eauto|].
  apply preprocess_raises in Hp as (feature & Hin & Hraise).
  specialize (Hok feature Hin). rewrite Hraise in Hok. discriminate Hok.
Qed.

(** The fifteen entries of the dictionary [preprocess] returns. *)
Lemma finish_preprocess_lookup data x1 x2 x3 x4 x5 x6 x7 x8 :
  let base := numeric_part x1 x2 x3 x4 x5 x6 x7 x8 in
  let processed := finish_preprocess data base in
  processed !! "Age" = Some (VFloat x1) /\
  processed !! "Academic Pressure" = Some (VFloat x2) /\
  processed !! "Work Pressure" = Some (VFloat x3) /\
  processed !! "CGPA" = Some (VFloat x4) /\
  processed !! "Study Satisfaction" = Some (VFloat x5) /\
  processed !! "Job Satisfaction" = Some (VFloat x6) /\
  processed !! "Work/Study Hours" = Some (VFloat x7) /\
  processed !! "Financial Stress" = Some (VFloat x8) /\
  processed !! "Sleep_Hours" =
    Some (table_get sleep_mapping (dict_get data "sleep_duration" (VStr "7-8 hours")) (VFloat 7.5)) /\
  processed !! "Diet_Score" =
    Some (table_get diet_mapping (dict_get data "dietary_habits" (VStr "Moderate")) (VInt 2)) /\
  processed !! "Gender_encoded" =
    Some (table_get gender_encoder (dict_get data "gender" (VStr "Male")) (VInt 0)) /\
  processed !! "Profession_encoded" =
    Some (table_get profession_encoder (dict_get data "profession" (VStr "Student")) (VInt 0)) /\
  processed !! "Have you ever had suicidal thoughts ?_encoded" =
    Some (table_get suicidal_encoder (dict_get data "suicidal_thoughts" (VStr "No")) (VInt 0)) /\
  processed !! "Family History of Mental Illness_encoded" =
    Some (table_get family_encoder (dict_get data "family_history" (VStr "No")) (VInt 0)) /\
  processed !! "Risk_Score" = Some (VFloat (_calculate_risk_score (encode_categorical data base))) /\
  dom processed = list_to_set default_feature_columns.
Proof.
  intros base processed. subst processed. unfold finish_preprocess.
  generalize (_calculate_risk_score (encode_categorical data base)). intros r.
  subst base. unfold encode_categorical.
  generalize (table_get sleep_mapping (dict_get data "sleep_duration" (VStr "7-8 hours")) (VFloat 7.5)).
  generalize (table_get diet_mapping (dict_get data "dietary_habits" (VStr "Moderate")) (VInt 2)).
  generalize (table_get gender_encoder (dict_get data "gender" (VStr "Male")) (VInt 0)).
  generalize (table_get profession_encoder (dict_get data "profession" (VStr "Student")) (VInt 0)).
  generalize (table_get suicidal_encoder (dict_get data "suicidal_thoughts" (VStr "No")) (VInt 0)).
  generalize (table_get family_encoder (dict_get data "family_history" (VStr "No")) (VInt 0)).
  intros fh st pr ge di sl. clear data.
  repeat split; vm_compute; reflexivity.
Qed.

(** ** Floats: order and commutativity *)

Lemma SFcompare_swap (x y : spec_float) :
  SFcompare y x = CompOpp <$> SFcompare x y.
Proof.
  destruct x as [sx|sx| |sx mx ex], y as [sy|sy| |sy my ey]; simpl;
    try reflexivity; try (destruct sx; reflexivity); try (destruct sy; reflexivity);
    try (destruct sx, sy; reflexivity).
  destruct sx, sy; simpl; try reflexivity.
  - rewrite (Z.compare_antisym ex ey). destruct (ex ?= ey)%Z; simpl; try reflexivity.
    rewrite Pos.compare_cont_antisym, CompOpp_involutive. reflexivity.
  - rewrite (Z.compare_antisym ex ey). destruct (ex ?= ey)%Z; simpl; try reflexivity.
    rewrite Pos.compare_cont_antisym. reflexivity.
Qed.

(** For two numbers (neither is NaN), [not (c < p)] is [p <= c]. *)
Lemma float_ltb_false_leb (c p : float) :
  (0 <=? p)%float = true -> (c <=? c)%float = true ->
  (c <? p)%float = false -> (p <=? c)%float = true.
Proof.
  rewrite !leb_spec, ltb_spec. unfold SFleb, SFltb.
  rewrite (SFcompare_swap (Prim2SF c) (Prim2SF p)).
  destruct (Prim2SF p) as [sp|sp| |sp mp ep], (Prim2SF c) as [sc|sc| |sc mc ec];
    simpl; try discriminate; try reflexivity;
    repeat match goal with
      | |- context [match ?x with _ => _ end] => destruct x; simpl
      end;
    try discriminate; try reflexivity.
Qed.

Lemma float_ltb_leb_false (c p : float) :
  (c <? p)%float = true -> (p <=? c)%float = false.
Proof.
  rewrite leb_spec, ltb_spec. unfold SFleb, SFltb.
  rewrite (SFcompare_swap (Prim2SF c) (Prim2SF p)).
  destruct (SFcompare (Prim2SF c) (Prim2SF p)) as [[]|]; simpl; congruence.
Qed.

Lemma float_mul_comm (x y : float) : (x * y)%float = (y * x)%float.
Proof.
  apply Prim2SF_inj. rewrite !mul_spec. unfold SF64mul, SFmul.
  destruct (Prim2SF x) as [sx|sx| |sx mx ex], (Prim2SF y) as [sy|sy| |sy my ey];
    try reflexivity; rewrite ?(xorb_comm sx sy); try reflexivity.
  rewrite (Pos.mul_comm mx my), (Z.add_comm ex ey). reflexivity.
Qed.

(** ** The lookup tables *)

Ltac table_cases :=
  repeat (rewrite list_to_map_cons; cbn [fst snd]; rewrite lookup_insert; case_decide;
          [cbn [default]; tauto |]);
  rewrite list_to_map_nil, lookup_empty; cbn [default]; tauto.

Lemma sleep_hours_cases key :
  let v := table_get sleep_mapping key (VFloat 7.5) in
  v = VInt 4 \/ v = VFloat 5.5 \/ v = VFloat 7.5 \/ v = VInt 9 \/ v = VFloat 6.
Proof.
  drop_builtins.
  destruct key; cbn [table_get]; try tauto. unfold sleep_mapping. table_cases.
Qed.

Lemma diet_score_cases key :
  let v := table_get diet_mapping key (VInt 2) in
  v = VInt 1 \/ v = VInt 2 \/ v = VInt 3.
Proof.
  drop_builtins.
  destruct key; cbn [table_get]; try tauto. unfold diet_mapping. table_cases.
Qed.

Lemma suicidal_code_cases key :
  let v := table_get suicidal_encoder key (VInt 0) in
  v = VInt 0 \/ v = VInt 1.
Proof.
  drop_builtins.
  destruct key; cbn [table_get]; try tauto. unfold suicidal_encoder. table_cases.
Qed.

Lemma family_code_cases key :
  let v := table_get family_encoder key (VInt 0) in
  v = VInt 0 \/ v = VInt 1.
Proof.
  drop_builtins.
  destruct key; cbn [table_get]; try tauto. unfold family_encoder. table_cases.
Qed.

(** The score stored by [preprocess] is the formula applied to the
    features stored beside it. *)
Lemma risk_score_of_encoded data x1 x2 x3 x4 x5 x6 x7 x8 :
  exists sl di st fh,
    as_float (table_get sleep_mapping (dict_get data "sleep_duration" (VStr "7-8 hours")) (VFloat 7.5)) = Some sl /\
    as_float (table_get diet_mapping (dict_get data "dietary_habits" (VStr "Moderate")) (VInt 2)) = Some di /\
    as_float (table_get suicidal_encoder (dict_get data "suicidal_thoughts" (VStr "No")) (VInt 0)) = Some st /\
    as_float (table_get family_encoder (dict_get data "family_history" (VStr "No")) (VInt 0)) = Some fh /\
    _calculate_risk_score (encode_categorical data (numeric_part x1 x2 x3 x4 x5 x6 x7 x8)) =
    risk_formula x2 x8 sl di st fh.
Proof.
  unfold encode_categorical, risk_formula.
  rewrite (float_mul_comm 0.2 x2), (float_mul_comm 0.2 x8).
  pose proof (sleep_hours_cases (dict_get data "sleep_duration" (VStr "7-8 hours"))) as Hsl.
  pose proof (diet_score_cases (dict_get data "dietary_habits" (VStr "Moderate"))) as Hdi.
  pose proof (suicidal_code_cases (dict_get data "suicidal_thoughts" (VStr "No"))) as Hst.
  pose proof (family_code_cases (dict_get data "family_history" (VStr "No"))) as Hfh.
  cbv zeta in Hsl, Hdi, Hst, Hfh.
  revert Hsl Hdi Hst Hfh.
  generalize (table_get sleep_mapping (dict_get data "sleep_duration" (VStr "7-8 hours")) (VFloat 7.5)).
  generalize (table_get diet_mapping (dict_get data "dietary_habits" (VStr "Moderate")) (VInt 2)).
  generalize (table_get gender_encoder (dict_get data "gender" (VStr "Male")) (VInt 0)).
  generalize (table_get profession_encoder (dict_get data "profession" (VStr "Student")) (VInt 0)).
  generalize (table_get suicidal_encoder (dict_get data "suicidal_thoughts" (VStr "No")) (VInt 0)).
  generalize (table_get family_encoder (dict_get data "family_history" (VStr "No")) (VInt 0)).
  intros vfh vst vpr vge vdi vsl Hsl Hdi Hst Hfh. clear data.
  repeat destruct Hsl as [-> | Hsl]; try subst vsl;
  repeat destruct Hdi as [-> | Hdi]; try subst vdi;
  repeat destruct Hst as [-> | Hst]; try subst vst;
  repeat destruct Hfh as [-> | Hfh]; try subst vfh;
  (do 4 eexists; repeat (split; [reflexivity |]); vm_compute; reflexivity).
Qed.

Lemma float_field_value request k lo hi :
  float_field request k lo hi = true -> exists f, request !! k = Some (VFloat f).
Proof.
  unfold float_field. destruct (request !! k) as [[]|]; try discriminate. eauto.
Qed.

Lemma valid_request_numeric request feature :
  valid_request request = true ->
  feature ∈ numerical_features ->
  raises (numeric_value request feature) = false.
Proof.
  unfold valid_request. rewrite !andb_true_iff. intros Hv Hin.
  apply elem_of_numerical_features in Hin.
  assert (exists lo hi, float_field request feature lo hi = true) as (lo & hi & Hf).
  { repeat destruct Hin as [-> | Hin]; try subst feature; do 2 eexists; apply Hv. }
  apply float_field_value in Hf as [f Hf]. unfold numeric_value. rewrite Hf. reflexivity.
Qed.

Lemma preprocess_all_features data processed :
  preprocess data = Ok processed ->
  (forall name, name ∈ default_feature_columns -> is_Some (processed !! name)) /\
  dom processed = list_to_set default_feature_columns.
Proof.
  intros Hp. apply preprocess_inv in Hp as (x1 & x2 & x3 & x4 & x5 & x6 & x7 & x8 & H).
  destruct H as (_ & _ & _ & _ & _ & _ & _ & _ & ->).
  pose proof (finish_preprocess_lookup data x1 x2 x3 x4 x5 x6 x7 x8) as L.
  cbv zeta in L. destruct L as (_ & _ & _ & _ & _ & _ & _ & _ & _ & _ & _ & _ & _ & _ & _ & Hdom).
  split; [|exact Hdom].
  intros name Hin. apply elem_of_dom. rewrite Hdom. apply elem_of_list_to_set. exact Hin.
Qed.

(** ** The claims about the feature mapper *)

(** C1 (amended). The risk score is the fixed linear formula
    [0.2*academic_pressure + 0.2*financial_stress + 0.1*(5 - sleep_hours)
     + 0.1*(4 - diet_score) + 0.3*suicidal_encoded + 0.1*family_encoded]
    evaluated in binary64 arithmetic from left to right: for every raw input
    on which [preprocess] returns, the stored [Risk_Score] is this formula
    on the features stored beside it. At academic pressure 5, financial
    stress 5, sleep hours 4, diet score 1 and both encodings 1 its value is
    2.8000000000000003, the binary64 number next above 2.8. *)
Theorem risk_score_linear_formula :
  (forall processed_data,
     has_number processed_data "Academic Pressure" 5 ->
     has_number processed_data "Financial Stress" 5 ->
     has_number processed_data "Sleep_Hours" 4 ->
     has_number processed_data "Diet_Score" 1 ->
     has_number processed_data "Have you ever had suicidal thoughts ?_encoded" 1 ->
     has_number processed_data "Family History of Mental Illness_encoded" 1 ->
     _calculate_risk_score processed_data = risk_formula 5 5 4 1 1 1 /\
     _calculate_risk_score processed_data = 2.8000000000000003%float /\
     _calculate_risk_score processed_data = next_up 2.8) /\
  (forall data processed,
     preprocess data = Ok processed ->
     exists ap fs sl di st fh,
       feature_value processed "Academic Pressure" = Some ap /\
       feature_value processed "Financial Stress" = Some fs /\
       feature_value processed "Sleep_Hours" = Some sl /\
       feature_value processed "Diet_Score" = Some di /\
       feature_value processed "Have you ever had suicidal thoughts ?_encoded" = Some st /\
       feature_value processed "Family History of Mental Illness_encoded" = Some fh /\
       processed !! "Risk_Score" = Some (VFloat (risk_formula ap fs sl di st fh))).
Proof.
  split.
  - intros pd H1 H2 H3 H4 H5 H6.
    unfold _calculate_risk_score, risk_score_sum, dict_get.
    destruct H1 as [-> | ->], H2 as [-> | ->], H3 as [-> | ->],
             H4 as [-> | ->], H5 as [-> | ->], H6 as [-> | ->];
      (repeat split; vm_compute; reflexivity).
  - intros data processed Hp.
    apply preprocess_inv in Hp as (x1 & x2 & x3 & x4 & x5 & x6 & x7 & x8 & H).
    destruct H as (_ & _ & _ & _ & _ & _ & _ & _ & ->).
    pose proof (finish_preprocess_lookup data x1 x2 x3 x4 x5 x6 x7 x8) as L.
    cbv zeta in L.
    destruct L as (_ & Hap & _ & _ & _ & _ & _ & Hfs & Hsl & Hdi & _ & _ & Hst & Hfh & Hrs & _).
    destruct (risk_score_of_encoded data x1 x2 x3 x4 x5 x6 x7 x8)
      as (sl & di & st & fh & Esl & Edi & Est & Efh & Escore).
    exists x2, x8, sl, di, st, fh. unfold feature_value.
    rewrite Hap, Hfs, Hsl, Hdi, Hst, Hfh, Hrs, Escore. cbn [mbind option_bind as_float].
    rewrite Esl, Edi, Est, Efh. repeat split; reflexivity.
Qed.

(** C6. For every valid request [preprocess] returns a dictionary that
    holds every feature name of the classifier; whenever [preprocess]
    returns, its keys are exactly those fifteen names; a numerical field
    that is absent is stored as [0.0], and absent fields never make
    [preprocess] raise. *)
Theorem preprocess_fills_every_feature :
  (forall data,
     valid_request data = true ->
     exists processed,
       preprocess data = Ok processed /\
       forall name, name ∈ default_feature_columns -> is_Some (processed !! name)) /\
  (forall data processed,
     preprocess data = Ok processed ->
     (forall name, name ∈ default_feature_columns -> is_Some (processed !! name)) /\
     dom processed = list_to_set default_feature_columns) /\
  (forall data processed feature name,
     preprocess data = Ok processed ->
     feature ∈ numerical_features ->
     feature_mapping !! feature = Some name ->
     data !! feature = None ->
     processed !! name = Some (VFloat 0)) /\
  (forall data,
     (forall feature v, feature ∈ numerical_features -> data !! feature = Some v ->
        raises (py_float v) = false) ->
     exists processed, preprocess data = Ok processed).
Proof.
  split; [|split; [|split]].
  - intros data Hv.
    destruct (preprocess_returns data) as [processed Hp].
    { intros feature Hin. apply valid_request_numeric; assumption. }
    exists processed. split; [exact Hp|]. apply (preprocess_all_features data processed Hp).
  - apply preprocess_all_features.
  - intros data processed feature name Hp Hin Hname Hnone.
    apply preprocess_inv in Hp as (x1 & x2 & x3 & x4 & x5 & x6 & x7 & x8 & H).
    destruct H as (E1 & E2 & E3 & E4 & E5 & E6 & E7 & E8 & ->).
    pose proof (finish_preprocess_lookup data x1 x2 x3 x4 x5 x6 x7 x8) as L.
    cbv zeta in L.
    destruct L as (L1 & L2 & L3 & L4 & L5 & L6 & L7 & L8 & _).
    apply elem_of_numerical_features in Hin.
    repeat destruct Hin as [-> | Hin]; try subst feature;
      vm_compute in Hname; injection Hname as <-;
      match goal with
      | E : numeric_value data ?f = Ok _, N : data !! ?f = None |- _ =>
          unfold numeric_value in E; rewrite N in E; injection E as <-
      end; assumption.
  - intros data Hok. apply preprocess_returns. intros feature Hin.
    unfold numeric_value. destruct (data !! feature) as [v|] eqn:E; [|reflexivity].
    apply (Hok feature v Hin E).
Qed.

Lemma py_mul_float_non_number v c :
  is_number v = false -> py_mul_float v c = Raise TypeError.
Proof. destruct v; simpl; congruence. Qed.

Lemma py_int_sub_non_number k v :
  is_number v = false -> py_int_sub k v = Raise TypeError.
Proof. destruct v; simpl; congruence. Qed.

Ltac run_binds :=
  repeat (cbn [mbind result_bind];
          match goal with
          | |- context [mbind _ ?r] =>
              lazymatch r with
              | Ok _ => fail
              | Raise _ => fail
              | _ => destruct r
              end
          end);
  cbn [mbind result_bind].

(** C8. [_calculate_risk_score] never raises: when the evaluation of the
    sum raises (for instance on a value that is not a number) the score is
    [0.0]; and [preprocess] goes on after the score whatever happened in
    it: once the numerical fields are copied it returns a dictionary with
    the score and every feature name. *)
Theorem risk_score_degrades_to_zero :
  (forall processed_data e,
     risk_score_sum processed_data = Raise e ->
     _calculate_risk_score processed_data = 0%float) /\
  (forall processed_data k v,
     k ∈ risk_score_inputs ->
     processed_data !! k = Some v ->
     is_number v = false ->
     raises (risk_score_sum processed_data) = true /\
     _calculate_risk_score processed_data = 0%float) /\
  (forall data base,
     copy_numerical data numerical_features ∅ = Ok base ->
     preprocess data =
       Ok (<["Risk_Score" := VFloat (_calculate_risk_score (encode_categorical data base))]>
             (encode_categorical data base)) /\
     exists processed,
       preprocess data = Ok processed /\
       forall name, name ∈ default_feature_columns -> is_Some (processed !! name)).
Proof.
  split; [|split].
  - intros pd e H. unfold _calculate_risk_score. rewrite H. reflexivity.
  - intros pd k v Hin Hk Hv.
    assert (raises (risk_score_sum pd) = true) as Hr.
    { unfold risk_score_inputs in Hin. rewrite !elem_of_cons, elem_of_nil in Hin.
      unfold risk_score_sum, dict_get.
      destruct Hin as [-> | [-> | [-> | [-> | [-> | [-> | []]]]]]];
        rewrite Hk; cbn [from_option id];
        rewrite ?(py_int_sub_non_number _ v Hv);
        repeat match goal with
          | |- context [py_mul_float v ?c] => rewrite (py_mul_float_non_number v c Hv)
          end;
        run_binds; reflexivity. }
    split; [exact Hr|].
    unfold _calculate_risk_score. destruct (risk_score_sum pd); [discriminate Hr | reflexivity].
  - intros data base Hb.
    assert (preprocess data =
              Ok (<["Risk_Score" := VFloat (_calculate_risk_score (encode_categorical data base))]>
                    (encode_categorical data base))) as Hp.
    { unfold preprocess. rewrite Hb. reflexivity. }
    split; [exact Hp|]. eexists. split; [exact Hp|].
    apply (preprocess_all_features data _ Hp).
Qed.

(** C10. When a numerical field is present and [float()] raises on its
    value, [preprocess] raises: no dictionary is returned, and the
    exception that reaches the caller is one raised by the coercion of a
    numerical field that is present. *)
Theorem preprocess_propagates_coercion_error data feature v e :
  feature ∈ numerical_features ->
  data !! feature = Some v ->
  py_float v = Raise e ->
  exists e',
    preprocess data = Raise e' /\
    exists feature' v',
      feature' ∈ numerical_features /\
      data !! feature' = Some v' /\
      py_float v' = Raise e'.
Proof.
  intros Hin Hv He.
  assert (numeric_value data feature = Raise e) as Hn.
  { unfold numeric_value. rewrite Hv. exact He. }
  destruct (numeric_raise_preprocess data feature e Hin Hn) as [e' Hp].
  exists e'. split; [exact Hp|].
  apply preprocess_raises in Hp as (feature' & Hin' & Hn').
  unfold numeric_value in Hn'. destruct (data !! feature') as [v'|] eqn:E; [|discriminate Hn'].
  exists feature', v'. auto.
Qed.

(** ** The risk factor analyzer *)

Lemma analyze_body_run data : analyze_body data = run_rules risk_rules data.
Proof.
  unfold analyze_body, risk_rules. cbn [run_rules].
  destruct (rule_academic_pressure data); [|reflexivity].
  destruct (rule_financial_stress data); [|reflexivity].
  destruct (rule_sleep data); [|reflexivity].
  destruct (rule_diet data); [|reflexivity].
  destruct (rule_suicidal_thoughts data); [|reflexivity].
  destruct (rule_family_history data); [|reflexivity].
  destruct (rule_work_pressure data); [|reflexivity].
  destruct (rule_study_satisfaction data); [|reflexivity].
  destruct (rule_job_satisfaction data); [|reflexivity].
  destruct (rule_cgpa data); [|reflexivity].
  cbn [mbind result_bind]. rewrite app_nil_r, <- !app_assoc. reflexivity.
Qed.

Lemma run_rules_raise rules data rule :
  rule ∈ rules -> raises (rule data) = true -> raises (run_rules rules data) = true.
Proof.
  induction rules as [|r rest IH]; intros Hin Hr.
  - apply elem_of_nil in Hin as [].
  - cbn [run_rules]. apply elem_of_cons in Hin as [<- | Hin].
    + destruct (rule data); [discriminate Hr | reflexivity].
    + specialize (IH Hin Hr). destruct (r data); [|reflexivity].
      cbn [mbind result_bind]. destruct (run_rules rest data); [discriminate IH | reflexivity].
Qed.

Lemma run_rules_ok rules data :
  (forall rule, rule ∈ rules -> raises (rule data) = false) ->
  run_rules rules data = Ok (flat_map (fun rule => emitted_by rule data) rules).
Proof.
  induction rules as [|r rest IH]; intros Hok; [reflexivity|].
  cbn [run_rules flat_map]. unfold emitted_by at 1.
  assert (raises (r data) = false) as Hr by (apply Hok; left).
  destruct (r data); [|discriminate Hr].
  cbn [mbind result_bind]. rewrite IH; [reflexivity|].
  intros rule Hin. apply Hok. right. exact Hin.
Qed.

Lemma run_rules_returns rules data l :
  run_rules rules data = Ok l ->
  l = flat_map (fun rule => emitted_by rule data) rules /\
  forall rule, rule ∈ rules -> raises (rule data) = false.
Proof.
  intros H.
  assert (forall rule, rule ∈ rules -> raises (rule data) = false) as Hok.
  { intros rule Hin. destruct (raises (rule data)) eqn:Hr; [|reflexivity].
    pose proof (run_rules_raise rules data rule Hin Hr) as Hc.
    rewrite H in Hc. discriminate Hc. }
  split; [|exact Hok]. rewrite (run_rules_ok rules data Hok) in H. congruence.
Qed.

Lemma risk_factor_entry_factor name v impact description :
  risk_factor_entry name v impact description !! "factor" = Some (VStr name).
Proof. vm_compute. reflexivity. Qed.

Lemma risk_factor_entry_impact name v impact description :
  risk_factor_entry name v impact description !! "impact" = Some (VStr impact).
Proof. vm_compute. reflexivity. Qed.

Ltac rule_shape_tac :=
  let H := fresh "H" in
  intros ? ? H; unfold emits_at_most; cbn [fst snd] in *;
  repeat (match type of H with
          | context [py_ge_int ?a ?b] => destruct (py_ge_int a b) as [[|]|]
          | context [py_le_int ?a ?b] => destruct (py_le_int a b) as [[|]|]
          | context [py_gt_int ?a ?b] => destruct (py_gt_int a b) as [[|]|]
          | context [py_lt_float ?a ?b] => destruct (py_lt_float a b) as [[|]|]
          | context [if ?c then _ else _] => destruct c
          end; cbn [mbind result_bind] in H; try discriminate H);
  injection H as <-;
  first [ left; reflexivity
        | right; do 3 eexists; split; [|reflexivity]; set_solver ].

Lemma rule_table_shape : Forall rule_shape rule_table.
Proof.
  unfold rule_table.
  repeat (apply List.Forall_cons); try apply List.Forall_nil; unfold rule_shape.
  - unfold rule_academic_pressure. rule_shape_tac.
  - unfold rule_financial_stress. rule_shape_tac.
  - unfold rule_sleep. rule_shape_tac.
  - unfold rule_diet. rule_shape_tac.
  - unfold rule_suicidal_thoughts. rule_shape_tac.
  - unfold rule_family_history. rule_shape_tac.
  - unfold rule_work_pressure. rule_shape_tac.
  - unfold rule_study_satisfaction. rule_shape_tac.
  - unfold rule_job_satisfaction. rule_shape_tac.
  - unfold rule_cgpa. rule_shape_tac.
Qed.

Lemma compared_number data k :
  raw_numbers_ok data = true ->
  k ∈ compared_fields ->
  is_number (dict_get data k (VInt 0)) = true.
Proof.
  unfold raw_numbers_ok. rewrite forallb_forall. intros Hok Hin.
  apply list_elem_of_In in Hin. specialize (Hok k Hin).
  unfold dict_get. destruct (data !! k); [exact Hok | reflexivity].
Qed.

Ltac rule_total_tac Hok :=
  repeat match goal with
    | |- context [dict_get ?d ?k (VInt 0)] =>
        let Hn := fresh "Hn" in
        assert (Hn : is_number (dict_get d k (VInt 0)) = true)
          by (apply (compared_number _ _ Hok); unfold compared_fields; set_solver);
        destruct (dict_get d k (VInt 0)); try discriminate Hn; clear Hn
    end;
  cbn [py_ge_int py_le_int py_gt_int py_lt_float mbind result_bind];
  repeat (match goal with
          | |- context [if ?c then _ else _] => destruct c
          end; cbn [mbind result_bind]);
  reflexivity.

(** On well-typed answers no rule raises. *)
Lemma rules_total data rule :
  raw_numbers_ok data = true ->
  rule ∈ risk_rules ->
  raises (rule data) = false.
Proof.
  intros Hok Hin. unfold risk_rules in Hin. rewrite !elem_of_cons, elem_of_nil in Hin.
  destruct Hin as [-> | [-> | [-> | [-> | [-> | [-> | [-> | [-> | [-> | [-> | []]]]]]]]]]].
  - unfold rule_academic_pressure. rule_total_tac Hok.
  - unfold rule_financial_stress. rule_total_tac Hok.
  - unfold rule_sleep. rule_total_tac Hok.
  - unfold rule_diet. rule_total_tac Hok.
  - unfold rule_suicidal_thoughts. rule_total_tac Hok.
  - unfold rule_family_history. rule_total_tac Hok.
  - unfold rule_work_pressure. rule_total_tac Hok.
  - unfold rule_study_satisfaction. rule_total_tac Hok.
  - unfold rule_job_satisfaction. rule_total_tac Hok.
  - unfold rule_cgpa. rule_total_tac Hok.
Qed.

Lemma analyze_well_typed data :
  raw_numbers_ok data = true ->
  analyze_risk_factors data = flat_map (fun rule => emitted_by rule data) risk_rules.
Proof.
  intros Hok. unfold analyze_risk_factors.
  rewrite analyze_body_run, run_rules_ok; [reflexivity|].
  intros rule Hin. apply rules_total; assumption.
Qed.

(** Either an error, and nothing is returned, or what the rules emit. *)
Lemma analyze_cases data :
  analyze_risk_factors data = [] \/
  analyze_risk_factors data = flat_map (fun rule => emitted_by rule data) risk_rules.
Proof.
  unfold analyze_risk_factors. rewrite analyze_body_run.
  destruct (run_rules risk_rules data) as [l|] eqn:E; [|left; reflexivity].
  right. apply run_rules_returns in E as [-> _]. reflexivity.
Qed.

Lemma emitted_by_shape entry data :
  rule_shape entry -> emits_at_most entry.1.2 entry.2 (emitted_by entry.1.1 data).
Proof.
  intros Hs. unfold emitted_by. destruct (entry.1.1 data) as [l|] eqn:E.
  - apply (Hs data l E).
  - left. reflexivity.
Qed.









(** The names come out in the order of the rules. *)
Lemma factor_names_table table data :
  Forall rule_shape table ->
  sublist
    (factor_names (flat_map (fun rule => emitted_by rule data) (map (fun e => e.1.1) table)))
    (map (fun e => VStr e.1.2) table).
Proof.
  induction table as [|entry rest IH]; intros Hs; [constructor|].
  apply Forall_cons in Hs as [Hs1 Hs2]. specialize (IH Hs2).
  cbn [map flat_map]. unfold factor_names in *. rewrite map_app.
  destruct (emitted_by_shape entry data Hs1) as [-> | (v & impact & d & _ & ->)].
  - cbn [map app]. apply sublist_cons. exact IH.
  - cbn [map app]. unfold dict_get at 1. rewrite risk_factor_entry_factor.
    cbn [from_option id]. apply sublist_skip. exact IH.
Qed.

(** ** The claims about the risk factor analyzer *)


(** C7. For the answers of the scenario (academic pressure 5, financial
    stress 5, less than five hours of sleep, unhealthy diet, suicidal
    thoughts, family history, work pressure 3, study satisfaction 3, job
    satisfaction 0, CGPA 7.0; any other field), the analyzer returns six
    entries, in this order and with these impacts. For every input the
    names of the returned entries follow the order of the rules. *)
Theorem scenario_six_factors_in_rule_order :
  (forall data,
     has_number data "academic_pressure" 5 ->
     has_number data "financial_stress" 5 ->
     data !! "sleep_duration" = Some (VStr "Less than 5 hours") ->
     data !! "dietary_habits" = Some (VStr "Unhealthy") ->
     data !! "suicidal_thoughts" = Some (VStr "Yes") ->
     data !! "family_history" = Some (VStr "Yes") ->
     has_number data "work_pressure" 3 ->
     has_number data "study_satisfaction" 3 ->
     has_number data "job_satisfaction" 0 ->
     has_number data "cgpa" 7 ->
     map factor_and_impact (analyze_risk_factors data) =
       [(VStr "High Academic Pressure", VStr "High");
        (VStr "High Financial Stress", VStr "High");
        (VStr "Insufficient Sleep", VStr "High");
        (VStr "Unhealthy Diet", VStr "Medium");
        (VStr "History of Suicidal Thoughts", VStr "Critical");
        (VStr "Family History of Mental Illness", VStr "Medium")]) /\
  (forall data,
     sublist (factor_names (analyze_risk_factors data)) (map VStr rule_order)).
Proof.
  split.
  - intros data H1 H2 H3 H4 H5 H6 H7 H8 H9 H10.
    unfold analyze_risk_factors, analyze_body, rule_academic_pressure,
      rule_financial_stress, rule_sleep, rule_diet, rule_suicidal_thoughts,
      rule_family_history, rule_work_pressure, rule_study_satisfaction,
      rule_job_satisfaction, rule_cgpa, dict_get.
    rewrite H3, H4, H5, H6.
    destruct H1 as [-> | ->], H2 as [-> | ->], H7 as [-> | ->],
             H8 as [-> | ->], H9 as [-> | ->], H10 as [-> | ->];
      vm_compute; reflexivity.
  - intros data. destruct (analyze_cases data) as [-> | ->].
    + apply sublist_nil_l.
    + apply (factor_names_table rule_table data rule_table_shape).
Qed.

(** C9 (amended). The analyzer never raises. When a rule raises, the
    rules after it are not evaluated and the entries already emitted are
    dropped: the analyzer returns the empty list. When no rule raises it
    returns what the rules emit, in their order. *)
Theorem analyze_empty_on_any_error :
  (forall data rule,
     rule ∈ risk_rules ->
     raises (rule data) = true ->
     analyze_risk_factors data = []) /\
  (forall data e,
     analyze_body data = Raise e ->
     analyze_risk_factors data = []) /\
  (forall data,
     (forall rule, rule ∈ risk_rules -> raises (rule data) = false) ->
     analyze_risk_factors data = flat_map (fun rule => emitted_by rule data) risk_rules).
Proof.
  split; [|split].
  - intros data rule Hin Hr. unfold analyze_risk_factors. rewrite analyze_body_run.
    pose proof (run_rules_raise risk_rules data rule Hin Hr) as H.
    destruct (run_rules risk_rules data); [discriminate H | reflexivity].
  - intros data e H. unfold analyze_risk_factors. rewrite H. reflexivity.
  - intros data Hok. unfold analyze_risk_factors.
    rewrite analyze_body_run, (run_rules_ok risk_rules data Hok). reflexivity.
Qed.

(** ** The recommendation engine *)

Lemma first_seen_filter (P : string -> Prop) `{!forall x, Decision (P x)} l :
  first_seen (filter P l) = filter P (first_seen l).
Proof.
  drop_builtins.
  induction l as [|x rest IH]; [reflexivity|].
  cbn [first_seen]. destruct (decide (P x)) as [Hx|Hx].
  - rewrite !filter_cons_True by assumption. cbn [first_seen]. rewrite IH.
    f_equal. rewrite !list_filter_filter. apply list_filter_iff. tauto.
  - rewrite !filter_cons_False by assumption. rewrite IH.
    symmetry. apply list_filter_filter_l. intros y Hy ->. contradiction.
Qed.

Lemma unique_loop_first_seen recommendations seen unique_recommendations :
  unique_loop recommendations seen unique_recommendations =
  unique_recommendations ++ first_seen (filter (fun y => y ∉ seen) recommendations).
Proof.
  revert seen unique_recommendations.
  induction recommendations as [|rec rest IH]; intros seen acc.
  - cbn. rewrite app_nil_r. reflexivity.
  - cbn [unique_loop]. destruct (decide (rec ∈ seen)) as [Hin|Hin].
    + rewrite IH, filter_cons_False; [reflexivity|]. intros Hn. contradiction.
    + rewrite IH, filter_cons_True by assumption. cbn [first_seen].
      rewrite <- app_assoc. cbn [app]. do 2 f_equal.
      rewrite <- first_seen_filter. f_equal.
      rewrite list_filter_filter. apply list_filter_iff. intros y.
      rewrite not_elem_of_union, not_elem_of_singleton. reflexivity.
Qed.

Lemma unique_loop_spec recommendations :
  unique_loop recommendations ∅ [] = first_seen recommendations.
Proof.
  rewrite unique_loop_first_seen. cbn [app]. f_equal.
  induction recommendations as [|x rest IH]; [reflexivity|].
  rewrite filter_cons_True by apply not_elem_of_empty. f_equal. exact IH.
Qed.

Lemma elem_of_first_seen x l : x ∈ first_seen l <-> x ∈ l.
Proof.
  drop_builtins.
  induction l as [|y rest IH]; [reflexivity|].
  cbn [first_seen]. rewrite !elem_of_cons, list_elem_of_filter, IH.
  destruct (decide (x = y)); tauto.
Qed.

Lemma NoDup_first_seen l : NoDup (first_seen l).
Proof.
  induction l as [|x rest IH]; [constructor|].
  cbn [first_seen]. constructor.
  - rewrite list_elem_of_filter. intros [Hne _]. apply Hne. reflexivity.
  - apply NoDup_filter. exact IH.
Qed.

Lemma sublist_first_seen l : sublist (first_seen l) l.
Proof.
  induction l as [|x rest IH]; [constructor|].
  cbn [first_seen]. apply sublist_skip.
  transitivity (first_seen rest); [apply sublist_filter | exact IH].
Qed.

(** C5. For every raw input, probability and list of risk factors, the
    list [generate_recommendations] returns has at most ten entries and no
    string twice. When the body raises it is the single fallback string;
    otherwise it is the first ten of the collected strings after each was
    kept at its first occurrence only (duplicates go before the list is
    cut), so its strings stand in the order in which they were collected. *)
Theorem recommendations_unique_capped data probability risk_factors :
  let out := generate_recommendations data probability risk_factors in
  length out <= 10 /\
  NoDup out /\
  match collect_recommendations probability risk_factors with
  | Ok recommendations =>
      out = take 10 (first_seen recommendations) /\
      sublist out recommendations /\
      (forall x, x ∈ recommendations <-> x ∈ first_seen recommendations)
  | Raise _ => out = [fallback_recommendation]
  end.
Proof.
  intros out. subst out. unfold generate_recommendations.
  destruct (collect_recommendations probability risk_factors) as [recs|e].
  - rewrite unique_loop_spec. repeat split.
    + rewrite length_take. lia.
    + apply (sublist_NoDup _ (first_seen recs)); [apply NoDup_first_seen | apply sublist_take].
    + transitivity (first_seen recs); [apply sublist_take | apply sublist_first_seen].
    + apply elem_of_first_seen.
    + apply elem_of_first_seen.
  - repeat split; [cbn; lia | apply NoDup_singleton].
Qed.

(** ** The classifier adapter *)

Lemma complete_features_lookup columns processed_data k :
  complete_features columns processed_data !! k =
  match processed_data !! k with
  | Some v => Some v
  | None => if decide (k ∈ columns) then Some (VFloat 0) else None
  end.
Proof.
  drop_builtins.
  revert k. induction columns as [|feature rest IH]; intros k; cbn [complete_features].
  - destruct (processed_data !! k); [reflexivity|].
    destruct (decide (k ∈ [])) as [Hin|_]; [|reflexivity].
    apply elem_of_nil in Hin as [].
  - pose proof (elem_of_cons rest k feature) as Hcons.
    destruct (complete_features rest processed_data !! feature) as [w|] eqn:E.
    + rewrite IH. rewrite IH in E.
      destruct (processed_data !! k) eqn:Ek; [reflexivity|].
      destruct (decide (k ∈ rest)) as [Hin|Hnin],
               (decide (k ∈ feature :: rest)) as [Hin'|Hnin'];
        try reflexivity; [tauto|].
      apply Hcons in Hin' as [-> | Hin']; [|contradiction].
      rewrite Ek in E. destruct (decide (feature ∈ rest)); [contradiction | discriminate E].
    + rewrite lookup_insert. destruct (decide (feature = k)) as [<-|Hne].
      * rewrite IH in E. destruct (processed_data !! feature); [discriminate E|].
        destruct (decide (feature ∈ feature :: rest)) as [_|Hn]; [reflexivity|].
        contradiction Hn. left.
      * rewrite IH. destruct (processed_data !! k); [reflexivity|].
        destruct (decide (k ∈ rest)) as [Hin|Hnin],
                 (decide (k ∈ feature :: rest)) as [Hin'|Hnin'];
          try reflexivity; [tauto|].
        apply Hcons in Hin' as [-> | Hin']; [congruence | contradiction].
Qed.

Lemma build_feature_vector_default columns processed_data :
  build_feature_vector columns processed_data =
  map (fun feature => dict_get processed_data feature (VFloat 0)) columns.
Proof.
  unfold build_feature_vector, dict_get. apply map_ext. intros feature.
  destruct (processed_data !! feature); reflexivity.
Qed.

Lemma build_feature_vector_complete columns processed_data :
  build_feature_vector columns (complete_features columns processed_data) =
  build_feature_vector columns processed_data.
Proof.
  unfold build_feature_vector. apply map_ext_in. intros feature Hin.
  apply list_elem_of_In in Hin. rewrite complete_features_lookup.
  destruct (processed_data !! feature); [reflexivity|].
  rewrite decide_True by assumption. reflexivity.
Qed.

(** C2 (amended). [predict] never fails because a feature is missing:
    the vector handed to the scaler has one entry for each expected
    column, in the order of the columns, with [0.0] in the place of every
    feature the dictionary lacks; the outcome (a prediction or an
    exception of the scaler or of the classifier) is the one obtained for
    the dictionary completed with [0.0]. It raises only when the model or
    the scaler is not loaded, or when one of them raises on that vector. *)
Theorem predict_defaults_missing_features self processed_data :
  let columns := feature_columns self in
  let vector := build_feature_vector columns processed_data in
  length vector = length columns /\
  vector = map (fun feature => dict_get processed_data feature (VFloat 0)) columns /\
  Forall (fun feature => is_Some (complete_features columns processed_data !! feature)) columns /\
  predict self processed_data = predict self (complete_features columns processed_data) /\
  predict self processed_data =
    match model self, scaler self with
    | Some clf, Some transform =>
        features_scaled ← transform columns vector;
        prediction ← clf_predict clf features_scaled;
        probability ← clf_predict_proba clf features_scaled;
        Ok (prediction, probability)
    | _, _ => Raise ValueError
    end.
Proof.
  intros columns vector. subst vector. split; [|split; [|split; [|split; [|reflexivity]]]].
  - unfold build_feature_vector. apply length_map.
  - apply build_feature_vector_default.
  - apply Forall_forall. intros feature Hin. rewrite complete_features_lookup.
    destruct (processed_data !! feature); [eauto|].
    rewrite decide_True by assumption. eauto.
  - unfold predict. fold columns. rewrite build_feature_vector_complete. reflexivity.
Qed.

(** ** The labels of the result *)

Lemma float_gt_07_gt_04 (p : float) :
  (0.7 <? p)%float = true -> (0.4 <? p)%float = true.
Proof.
  rewrite !ltb_spec. unfold SFltb.
  let v := eval vm_compute in (Prim2SF 0.7) in change (Prim2SF 0.7) with v.
  let v := eval vm_compute in (Prim2SF 0.4) in change (Prim2SF 0.4) with v.
  destruct (Prim2SF p) as [s|s| |s m e]; cbn [SFcompare];
    try (destruct s); try (simpl; congruence).
  destruct (Z.compare_spec (-53) e) as [<- | Hlt | Hgt]; try discriminate.
  - intros _. reflexivity.
  - intros _. destruct (Z.compare_spec (-54) e); try lia; try reflexivity.
Qed.

Lemma diagnose_labels predictor now request response :
  diagnose (Some predictor) true now request = inr response ->
  confidence response = confidence_label (probability response) /\
  risk_level response = risk_level_label (probability response) /\
  (0 <=? probability response)%float = true /\
  (probability response <=? 1)%float = true.
Proof.
  unfold diagnose, diagnose_body. intros H.
  destruct (preprocess request) as [processed|]; cbn [mbind result_bind] in H;
    [|destruct e; discriminate H].
  destruct (predict predictor processed) as [[c p]|]; cbn [mbind result_bind] in H;
    [|destruct e; discriminate H].
  unfold make_response in H. cbn [fst snd] in H.
  destruct ((0 <=? p)%float && (p <=? 1)%float) eqn:Hrange; [|discriminate H].
  apply andb_true_iff in Hrange as [H0 H1].
  injection H as <-. cbn. auto.
Qed.

(** C3. For every probability between 0 and 1 the confidence label is
    High exactly when [p > 0.8 or p < 0.2], Medium exactly when that fails
    and [p > 0.6 or p < 0.4], and Low otherwise; the risk level is High
    exactly when [p > 0.7], Medium exactly when [0.4 < p <= 0.7], and Low
    otherwise, that is when [p <= 0.4]. At 0.71, 0.85 and 0.5 the labels
    are the ones listed, and the bounds 0.2, 0.4, 0.6, 0.7 and 0.8
    themselves fall in the lower band. The response of [diagnose] carries
    these labels for its probability, which lies between 0 and 1. *)
Theorem labels_follow_probability_bands :
  (forall p,
     (0 <=? p)%float = true ->
     (p <=? 1)%float = true ->
     let high := (0.8 <? p)%float = true \/ (p <? 0.2)%float = true in
     let medium := (0.6 <? p)%float = true \/ (p <? 0.4)%float = true in
     (confidence_label p = "High" <-> high) /\
     (confidence_label p = "Medium" <-> ~ high /\ medium) /\
     (confidence_label p = "Low" <-> ~ high /\ ~ medium) /\
     (risk_level_label p = "High" <-> (0.7 <? p)%float = true) /\
     (risk_level_label p = "Medium" <->
        (0.4 <? p)%float = true /\ (p <=? 0.7)%float = true) /\
     (risk_level_label p = "Low" <->
        (0.7 <? p)%float = false /\ ~ ((0.4 <? p)%float = true /\ (p <=? 0.7)%float = true)) /\
     (risk_level_label p = "Low" <-> (p <=? 0.4)%float = true)) /\
  (risk_level_label 0.71 = "High" /\ confidence_label 0.71 = "Medium" /\
   risk_level_label 0.85 = "High" /\ confidence_label 0.85 = "High" /\
   risk_level_label 0.5 = "Medium" /\ confidence_label 0.5 = "Low") /\
  (risk_level_label 0.7 = "Medium" /\ risk_level_label 0.4 = "Low" /\
   confidence_label 0.8 = "Medium" /\ confidence_label 0.2 = "Medium" /\
   confidence_label 0.6 = "Low" /\ confidence_label 0.4 = "Low") /\
  (forall predictor now request response,
     diagnose (Some predictor) true now request = inr response ->
     confidence response = confidence_label (probability response) /\
     risk_level response = risk_level_label (probability response) /\
     (0 <=? probability response)%float = true /\
     (probability response <=? 1)%float = true).
Proof.
  split; [|split; [|split]].
  - intros p H0 H1 high medium. subst high medium.
    unfold confidence_label, risk_level_label.
    pose proof (float_ltb_false_leb 0.7 p H0 eq_refl) as L7.
    pose proof (float_ltb_leb_false 0.7 p) as G7.
    pose proof (float_ltb_false_leb 0.4 p H0 eq_refl) as L4.
    pose proof (float_ltb_leb_false 0.4 p) as G4.
    pose proof (float_gt_07_gt_04 p) as T.
    destruct (0.8 <? p)%float, (p <? 0.2)%float, (0.6 <? p)%float, (p <? 0.4)%float,
      (0.7 <? p)%float, (0.4 <? p)%float;
      cbn [orb];
      first [specialize (T eq_refl); discriminate T | clear T];
      first [specialize (L7 eq_refl); rewrite L7 | specialize (G7 eq_refl); rewrite G7];
      first [specialize (L4 eq_refl); rewrite L4 | specialize (G4 eq_refl); rewrite G4];
      repeat split; intros; try discriminate; try reflexivity; try tauto; intuition congruence.
  - repeat split; vm_compute; reflexivity.
  - repeat split; vm_compute; reflexivity.
  - apply diagnose_labels.
Qed.

(** ** Further properties of the feature mapper *)

(** X1. [preprocess] reads fourteen fields of the raw answers and nothing
    else: two dictionaries that agree on them (whatever they hold under
    [city], [degree] or any other key) give the same outcome, the same
    features or the same exception. *)
Theorem preprocess_reads_its_fields_only data data' :
  (forall k, k ∈ preprocess_fields -> data !! k = data' !! k) ->
  preprocess data = preprocess data'.
Proof.
  intros Hagree.
  assert (forall k, k ∈ preprocess_fields -> dict_get data k = dict_get data' k) as Hget.
  { intros k Hk. unfold dict_get. rewrite (Hagree k Hk). reflexivity. }
  assert (forall k, k ∈ numerical_features -> numeric_value data k = numeric_value data' k) as Hnum.
  { intros k Hk. unfold numeric_value. rewrite (Hagree k); [reflexivity|].
    unfold preprocess_fields. apply elem_of_app. left. exact Hk. }
  rewrite !preprocess_chain.
  rewrite !(Hnum _) by (unfold numerical_features; set_solver).
  assert (forall base, finish_preprocess data base = finish_preprocess data' base) as Hfin.
  { intros base. unfold finish_preprocess, encode_categorical.
    rewrite !(Hget _) by (unfold preprocess_fields, numerical_features; set_solver).
    reflexivity. }
  repeat match goal with
    | |- context [numeric_value data' ?f] =>
        destruct (numeric_value data' f); cbn [mbind result_bind]; [|reflexivity]
    end.
  rewrite Hfin. reflexivity.
Qed.


Lemma copy_numerical_chain data :
  copy_numerical data numerical_features ∅ =
  (x1 ← numeric_value data "age";
   x2 ← numeric_value data "academic_pressure";
   x3 ← numeric_value data "work_pressure";
   x4 ← numeric_value data "cgpa";
   x5 ← numeric_value data "study_satisfaction";
   x6 ← numeric_value data "job_satisfaction";
   x7 ← numeric_value data "work_study_hours";
   x8 ← numeric_value data "financial_stress";
   Ok (numeric_part x1 x2 x3 x4 x5 x6 x7 x8)).
Proof.
  unfold numerical_features.
  repeat (rewrite copy_numerical_cons; eval_feature_name;
          match goal with
          | |- context [numeric_value data ?f] =>
              destruct (numeric_value data f); [|reflexivity]
          end; cbn [mbind result_bind]).
  reflexivity.
Qed.

(** X3. The formula of the risk score never fails inside [preprocess]:
    on the dictionary that [preprocess] builds, the sum is evaluated
    without exception, so the stored [Risk_Score] is the value of the sum
    and never the [0.0] of the [except] clause. *)
Theorem preprocess_score_is_never_the_fallback data processed :
  preprocess data = Ok processed ->
  exists base score,
    copy_numerical data numerical_features ∅ = Ok base /\
    risk_score_sum (encode_categorical data base) = Ok score /\
    processed !! "Risk_Score" = Some (VFloat score).
Proof.
  intros Hp. unfold preprocess in Hp.
  destruct (copy_numerical data numerical_features ∅) as [base|] eqn:Hb; [|discriminate Hp].
  cbn [mbind result_bind] in Hp. injection Hp as <-.
  assert (exists score, risk_score_sum (encode_categorical data base) = Ok score) as [score Hs].
  { rewrite copy_numerical_chain in Hb.
    repeat match type of Hb with
      | context [numeric_value data ?f] =>
          destruct (numeric_value data f); cbn [mbind result_bind] in Hb; [|discriminate Hb]
      end.
    injection Hb as <-. unfold encode_categorical.
    pose proof (sleep_hours_cases (dict_get data "sleep_duration" (VStr "7-8 hours"))) as Hsl.
    pose proof (diet_score_cases (dict_get data "dietary_habits" (VStr "Moderate"))) as Hdi.
    pose proof (suicidal_code_cases (dict_get data "suicidal_thoughts" (VStr "No"))) as Hst.
    pose proof (family_code_cases (dict_get data "family_history" (VStr "No"))) as Hfh.
    cbv zeta in Hsl, Hdi, Hst, Hfh. revert Hsl Hdi Hst Hfh.
    generalize (table_get sleep_mapping (dict_get data "sleep_duration" (VStr "7-8 hours")) (VFloat 7.5)).
    generalize (table_get diet_mapping (dict_get data "dietary_habits" (VStr "Moderate")) (VInt 2)).
    generalize (table_get gender_encoder (dict_get data "gender" (VStr "Male")) (VInt 0)).
    generalize (table_get profession_encoder (dict_get data "profession" (VStr "Student")) (VInt 0)).
    generalize (table_get suicidal_encoder (dict_get data "suicidal_thoughts" (VStr "No")) (VInt 0)).
    generalize (table_get family_encoder (dict_get data "family_history" (VStr "No")) (VInt 0)).
    intros vfh vst vpr vge vdi vsl Hsl Hdi Hst Hfh.
    repeat destruct Hsl as [-> | Hsl]; try subst vsl;
    repeat destruct Hdi as [-> | Hdi]; try subst vdi;
    repeat destruct Hst as [-> | Hst]; try subst vst;
    repeat destruct Hfh as [-> | Hfh]; try subst vfh;
    (eexists; vm_compute; reflexivity). }
  exists base, score. split; [reflexivity|]. split; [exact Hs|].
  unfold _calculate_risk_score. rewrite Hs. apply lookup_insert_eq.
Qed.


(** ** Further properties of the classifier adapter *)

(** X4. [predict] reads the features named by [feature_columns] and
    nothing else: two dictionaries that agree on them give the same
    outcome. *)
Theorem predict_reads_its_columns_only self processed_data processed_data' :
  (forall feature, feature ∈ feature_columns self ->
     processed_data !! feature = processed_data' !! feature) ->
  predict self processed_data = predict self processed_data'.
Proof.
  intros Hagree. unfold predict.
  replace (build_feature_vector (feature_columns self) processed_data')
    with (build_feature_vector (feature_columns self) processed_data); [reflexivity|].
  unfold build_feature_vector. apply map_ext_in. intros feature Hin.
  apply list_elem_of_In in Hin. rewrite (Hagree feature Hin). reflexivity.
Qed.

(** X5. With the default columns, the vector built from any dictionary
    returned by [preprocess] takes each of its fifteen entries from the
    dictionary: the branch that substitutes [0.0] for a missing feature
    is never taken. *)
Theorem preprocess_output_needs_no_default data processed :
  preprocess data = Ok processed ->
  length (build_feature_vector default_feature_columns processed) = 15 /\
  Forall2 (fun feature v => processed !! feature = Some v)
    default_feature_columns
    (build_feature_vector default_feature_columns processed).
Proof.
  intros Hp. split; [reflexivity|].
  destruct (preprocess_all_features data processed Hp) as [Hall _].
  unfold build_feature_vector.
  assert (Forall (fun name => is_Some (processed !! name)) default_feature_columns) as HF.
  { apply Forall_forall. exact Hall. }
  clear Hall. induction HF as [|name rest [v Hv] _ IH]; [constructor|].
  cbn [map]. constructor; [|exact IH]. rewrite Hv. reflexivity.
Qed.

Lemma factor_names_in_rule_order data :
  sublist (factor_names (analyze_risk_factors data)) (map VStr rule_order).
Proof.
  destruct (analyze_cases data) as [-> | ->].
  - apply sublist_nil_l.
  - apply (factor_names_table rule_table data rule_table_shape).
Qed.

(** ** Further properties of the risk factor analyzer *)

Lemma Forall_emitted_table (Q : dict -> Prop) table data :
  Forall rule_shape table ->
  Forall (fun entry => forall v impact description,
            impact ∈ entry.2 ->
            Q (risk_factor_entry entry.1.2 v impact description)) table ->
  Forall Q (flat_map (fun rule => emitted_by rule data) (map (fun e => e.1.1) table)).
Proof.
  induction table as [|entry rest IH]; intros Hs HQ; [constructor|].
  apply Forall_cons in Hs as [Hs1 Hs2]. apply Forall_cons in HQ as [HQ1 HQ2].
  cbn [map flat_map]. apply Forall_app. split; [|exact (IH Hs2 HQ2)].
  destruct (emitted_by_shape entry data Hs1) as [-> | (v & impact & d & Hin & ->)];
    [constructor|].
  constructor; [|constructor]. apply (HQ1 v impact d Hin).
Qed.

Lemma risk_factor_entry_description name v impact description :
  risk_factor_entry name v impact description !! "description" = Some (VStr description).
Proof. vm_compute. reflexivity. Qed.


Lemma risk_factor_entry_dom name v impact description :
  dom (risk_factor_entry name v impact description) =
  list_to_set ["factor"; "value"; "impact"; "description"].
Proof. vm_compute. reflexivity. Qed.

Lemma NoDup_rule_order : NoDup (map VStr rule_order).
Proof.
  assert (Inj (=) (=) VStr) as HI by (intros x y [=]; assumption).
  apply (NoDup_fmap_2 VStr).
  apply (bool_decide_unpack (NoDup rule_order)). vm_compute. exact I.
Qed.

(** X6. Whatever the input, the analyzer returns at most ten entries and
    no factor name twice; every entry has exactly the keys [factor],
    [value], [impact] and [description], a name of the fixed list, a
    string as description and an impact that is Medium, High or Critical:
    the impact Low is never given. *)
Theorem analyze_output_well_formed data :
  let out := analyze_risk_factors data in
  length out <= 10 /\
  NoDup (factor_names out) /\
  Forall (fun risk_factor =>
            dom risk_factor = list_to_set ["factor"; "value"; "impact"; "description"] /\
            exists name impact description,
              name ∈ rule_order /\
              impact ∈ ["Medium"; "High"; "Critical"] /\
              risk_factor !! "factor" = Some (VStr name) /\
              risk_factor !! "impact" = Some (VStr impact) /\
              risk_factor !! "description" = Some (VStr description)) out.
Proof.
  drop_builtins. intros out. subst out.
  pose proof (factor_names_in_rule_order data) as Hsub.
  split; [|split].
  - apply sublist_length in Hsub. unfold factor_names in Hsub.
    rewrite !length_map in Hsub. exact Hsub.
  - apply (sublist_NoDup _ _ NoDup_rule_order Hsub).
  - destruct (analyze_cases data) as [-> | ->]; [constructor|].
    apply (Forall_emitted_table _ rule_table data rule_table_shape).
    unfold rule_table.
    repeat (apply List.Forall_cons); try apply List.Forall_nil;
      intros v impact d Hin; cbn [fst snd] in *;
      (split; [apply risk_factor_entry_dom|]);
      match goal with
      | |- context [risk_factor_entry ?n _ _ _] => exists n, impact, d
      end;
      (split; [unfold rule_order; rewrite !elem_of_cons; tauto|]);
      (split; [revert Hin; rewrite !elem_of_cons, !elem_of_nil; tauto|]);
      (split; [apply risk_factor_entry_factor|]);
      (split; [apply risk_factor_entry_impact | apply risk_factor_entry_description]).
Qed.


(** ** Further properties of the recommendation engine *)

Lemma filter_id (P : string -> Prop) `{!forall x, Decision (P x)} l :
  Forall P l -> filter P l = l.
Proof.
  drop_builtins.
  induction 1 as [|x rest Hx _ IH]; [reflexivity|].
  rewrite filter_cons_True by assumption. f_equal. exact IH.
Qed.

Lemma first_seen_app pre post :
  NoDup pre ->
  first_seen (pre ++ post) = pre ++ filter (fun y => y ∉ pre) (first_seen post).
Proof.
  drop_builtins.
  induction pre as [|x rest IH]; intros Hnd.
  - cbn [app]. symmetry. apply filter_id. apply Forall_forall.
    intros y _. apply not_elem_of_nil.
  - apply NoDup_cons in Hnd as [Hx Hnd]. cbn [app first_seen].
    rewrite (IH Hnd), filter_app. f_equal. f_equal.
    + apply filter_id. apply Forall_forall. intros y Hy ->. contradiction.
    + rewrite list_filter_filter. apply list_filter_iff. intros y.
      rewrite not_elem_of_cons. reflexivity.
Qed.





Lemma seed_recommendations_cases probability :
  NoDup (seed_recommendations probability) /\
  length (seed_recommendations probability) = 3 /\
  seed_recommendations probability = seed_for_level (risk_level_label probability).
Proof.
  unfold seed_recommendations, risk_level_label.
  destruct (0.7 <? probability)%float; [|destruct (0.4 <? probability)%float];
    (split; [apply (bool_decide_unpack (NoDup _)); vm_compute; exact I|]);
    split; reflexivity.
Qed.

(** The output when the body does not raise: it begins with the seed. *)
Lemma generate_from_collected data probability risk_factors more :
  collect_recommendations probability risk_factors =
    Ok (seed_recommendations probability ++ more) ->
  exists others,
    generate_recommendations data probability risk_factors =
    take 10 (seed_recommendations probability ++ others).
Proof.
  intros H. unfold generate_recommendations. rewrite H, unique_loop_spec.
  destruct (seed_recommendations_cases probability) as (Hnd & _ & _).
  rewrite (first_seen_app _ _ Hnd). eexists. reflexivity.
Qed.



Lemma analyzed_factors_give_pairs data :
  Forall (fun risk_factor => exists a b, factor_recommendations risk_factor = Ok [a; b])
    (analyze_risk_factors data).
Proof.
  destruct (analyze_cases data) as [-> | ->]; [constructor|].
  apply (Forall_emitted_table _ rule_table data rule_table_shape).
  unfold rule_table.
  repeat (apply List.Forall_cons); try apply List.Forall_nil;
    intros v impact d _; cbn [fst snd]; do 2 eexists; vm_compute; reflexivity.
Qed.

Lemma extend_recommendations_pairs risk_factors recommendations :
  Forall (fun risk_factor => exists a b, factor_recommendations risk_factor = Ok [a; b])
    risk_factors ->
  exists more,
    extend_recommendations risk_factors recommendations = Ok (recommendations ++ more) /\
    length more = 2 * length risk_factors.
Proof.
  drop_builtins.
  intros HF. revert recommendations.
  induction HF as [|risk_factor rest (a & b & Hab) _ IH]; intros recs; cbn [extend_recommendations].
  - exists []. rewrite app_nil_r. split; reflexivity.
  - rewrite Hab. cbn [mbind result_bind]. destruct (IH (recs ++ [a; b])) as (more & Hm & Hlen).
    exists ([a; b] ++ more). rewrite Hm, app_assoc. split; [reflexivity|].
    rewrite length_app, Hlen. cbn [length]. lia.
Qed.

(** X9. On the factors returned by the analyzer the engine never falls
    back: every factor the analyzer can emit is matched by one branch of
    the [if]/[elif] chain and adds two strings, so three plus twice the
    number of factors are collected; the output keeps at least three, and
    its first three are the seed advice of the band that also gives the
    risk level label (both use the bounds 0.7 and 0.4). *)
Theorem recommendations_for_analyzed_factors data probability :
  let risk_factors := analyze_risk_factors data in
  let out := generate_recommendations data probability risk_factors in
  (exists recommendations,
     collect_recommendations probability risk_factors = Ok recommendations /\
     length recommendations = 3 + 2 * length risk_factors /\
     out = take 10 (first_seen recommendations)) /\
  3 <= length out /\
  take 3 out = seed_recommendations probability /\
  take 3 out = seed_for_level (risk_level_label probability).
Proof.
  intros risk_factors out. subst out risk_factors.
  destruct (seed_recommendations_cases probability) as (Hnd & Hlen & Hlevel).
  destruct (extend_recommendations_pairs (analyze_risk_factors data)
              (seed_recommendations probability) (analyzed_factors_give_pairs data))
    as (more & Hm & Hmore).
  destruct (generate_from_collected data probability (analyze_risk_factors data) more Hm)
    as [others Ho].
  assert (take 3 (generate_recommendations data probability (analyze_risk_factors data))
          = seed_recommendations probability) as Htake.
  { rewrite Ho, take_take. change (3 `min` 10) with 3.
    apply take_app_length'. symmetry. exact Hlen. }
  split; [|split; [|split]].
  - exists (seed_recommendations probability ++ more). split; [exact Hm|]. split.
    + rewrite length_app, Hlen, Hmore. reflexivity.
    + unfold generate_recommendations. unfold collect_recommendations in *.
      rewrite Hm, unique_loop_spec. reflexivity.
  - rewrite Ho, length_take, length_app, Hlen. lia.
  - exact Htake.
  - rewrite Htake. exact Hlevel.
Qed.






(** ** Further properties of the handler and of the application *)

(** X11. [diagnose] answers with a response, with status 400 or with
    status 500, never with the 503 it raises when a global is missing:
    that exception is caught by the handler's own last [except] clause
    and leaves as a 500. On a valid request [preprocess] cannot fail, so
    the outcome is decided by the predictor: a probability outside
    [0, 1] (or NaN) and a [ValueError] give 400, any other exception 500,
    and otherwise the response carries the analyzer's factors, the
    engine's recommendations and the labels of the probability. *)
Theorem diagnose_outcomes :
  (forall predictor loaded now request status,
     diagnose predictor loaded now request = inl status ->
     status = 400%Z \/ status = 500%Z) /\
  (forall predictor loaded now request,
     predictor = None \/ loaded = false ->
     diagnose predictor loaded now request = inl 500%Z) /\
  (forall p now request,
     valid_request request = true ->
     exists processed_data,
       preprocess request = Ok processed_data /\
       diagnose (Some p) true now request =
       match predict p processed_data with
       | Ok (class, probability) =>
           if (0 <=? probability)%float && (probability <=? 1)%float then
             inr {| prediction := class; probability := probability;
                    confidence := confidence_label probability;
                    risk_level := risk_level_label probability;
                    risk_factors := analyze_risk_factors request;
                    recommendations :=
                      generate_recommendations request probability
                        (analyze_risk_factors request);
                    timestamp := now |}
           else inl 400%Z
       | Raise ValueError => inl 400%Z
       | Raise _ => inl 500%Z
       end).
Proof.
  split; [|split].
  - intros predictor loaded now request status H. unfold diagnose in H.
    destruct predictor as [p|], loaded; try (injection H as <-; right; reflexivity).
    destruct (diagnose_body p now request) as [r|[]]; try discriminate H;
      injection H as <-; tauto.
  - intros predictor loaded now request [-> | ->]; [reflexivity|].
    unfold diagnose. destruct predictor; reflexivity.
  - intros p now request Hv.
    destruct (preprocess_returns request) as [processed Hp].
    { intros feature Hin. apply valid_request_numeric; assumption. }
    exists processed. split; [exact Hp|].
    unfold diagnose, diagnose_body. rewrite Hp. cbn [mbind result_bind].
    destruct (predict p processed) as [[class probability]|e]; cbn [mbind result_bind fst snd].
    + unfold make_response.
      destruct ((0 <=? probability)%float && (probability <=? 1)%float); reflexivity.
    + destruct e; reflexivity.
Qed.

(** X12. [make_prediction] hands the answers of the session to
    [preprocess] as they are and turns every exception into [None]: as
    soon as one numerical field holds a value that [float()] rejects, no
    result is produced, whatever the models and the other answers. The
    questionnaire stores the selected option of [job_satisfaction] (such
    as "Not Applicable"), so this is the case whenever [float()] rejects
    that string. *)
Theorem make_prediction_none_on_uncoercible_answer loaded now answers feature v :
  feature ∈ numerical_features ->
  answers !! feature = Some v ->
  raises (py_float v) = true ->
  make_prediction loaded now answers = None.
Proof.
  intros Hin Hv Hr. unfold make_prediction. destruct loaded as [predictor|]; [|reflexivity].
  destruct (py_float v) as [|e] eqn:E; [discriminate Hr|].
  assert (numeric_value answers feature = Raise e) as Hn.
  { unfold numeric_value. rewrite Hv. exact E. }
  destruct (numeric_raise_preprocess answers feature e Hin Hn) as [e' ->].
  reflexivity.
Qed.

Lemma validate_loop_spec answers questions missing :
  Forall (fun question => is_Some (question !! "id") /\ is_Some (question !! "type"))
    questions ->
  validate_loop answers questions missing =
  Ok (missing ++
      map (fun question => dict_get question "id" VNone)
        (List.filter (fun question => negb (is_answered answers question)) questions)).
Proof.
  drop_builtins.
  intros HF. revert missing.
  induction HF as [|question rest [[qid Hid] [type Htype]] _ IH]; intros missing.
  - cbn. rewrite app_nil_r. reflexivity.
  - assert (dict_get question "id" VNone = qid) as Hget
      by (unfold dict_get; rewrite Hid; reflexivity).
    cbn [validate_loop List.filter].
    replace (dict_index question "id") with (Ok qid)
      by (unfold dict_index; rewrite Hid; reflexivity).
    replace (dict_index question "type") with (Ok type)
      by (unfold dict_index; rewrite Htype; reflexivity).
    cbn [mbind result_bind].
    assert (is_answered answers question =
            py_in_dict qid answers &&
            (if py_eq_str type "text_input"
             then match py_index answers qid with
                  | Ok answer => py_truthy answer
                  | Raise _ => false
                  end
             else true)) as Hans.
    { unfold is_answered. rewrite Hid, Htype.
      destruct qid as [| | |s]; try reflexivity. cbn [py_in_dict py_index]. unfold dict_index.
      destruct (answers !! s) as [answer|].
      - rewrite bool_decide_true by eauto. reflexivity.
      - rewrite bool_decide_false by (intros [? ?]; discriminate). reflexivity. }
    rewrite Hans. destruct (py_in_dict qid answers) eqn:Hin; cbn [negb andb map].
    + destruct (py_eq_str type "text_input"); [|cbn [negb]; apply IH].
      destruct (py_index answers qid) as [answer|e] eqn:Ei.
      * cbn [mbind result_bind]. destruct (py_truthy answer); cbn [negb map]; [apply IH|].
        rewrite IH, Hget, <- app_assoc. reflexivity.
      * exfalso. destruct qid as [| | |s]; try discriminate Hin.
        cbn [py_in_dict py_index] in *. unfold dict_index in Ei.
        apply bool_decide_eq_true in Hin as [answer Ha]. rewrite Ha in Ei. discriminate Ei.
    + rewrite IH, Hget, <- app_assoc. reflexivity.
Qed.

(** X13. For questions that all have an [id] and a [type],
    [validate_answers] does not raise and returns, in the order of the
    questions, the ids of those that are not answered: the id is not a
    key of the answers, or the question is a text input whose answer is
    empty. For the other types any stored answer counts, also 0. The
    result is empty exactly when every question is answered. *)
Theorem validate_answers_lists_unanswered answers questions :
  Forall (fun question => is_Some (question !! "id") /\ is_Some (question !! "type"))
    questions ->
  validate_answers answers questions =
    Ok (map (fun question => dict_get question "id" VNone)
          (List.filter (fun question => negb (is_answered answers question)) questions)) /\
  (validate_answers answers questions = Ok [] <->
   forallb (is_answered answers) questions = true).
Proof.
  drop_builtins.
  intros HF. unfold validate_answers. rewrite (validate_loop_spec answers questions [] HF).
  cbn [app]. split; [reflexivity|]. clear HF.
  induction questions as [|question rest IH]; [cbn; tauto|].
  cbn [List.filter forallb].
  destruct (is_answered answers question); cbn [negb andb map]; [exact IH|].
  split; intros H; discriminate H.
Qed.

Lemma insert_by_key_front {A} (key : A -> nat) x l :
  Forall (fun y => key x <= key y) l -> insert_by_key key x l = x :: l.
Proof.
  drop_builtins.
  destruct 1 as [|y rest Hy _]; [reflexivity|].
  cbn [insert_by_key]. apply Nat.leb_le in Hy. rewrite Hy. reflexivity.
Qed.

Lemma insert_by_key_pass {A} (key : A -> nat) x before after :
  Forall (fun y => key y < key x) before ->
  insert_by_key key x (before ++ after) = before ++ insert_by_key key x after.
Proof.
  drop_builtins.
  induction 1 as [|y rest Hy _ IH]; [reflexivity|].
  cbn [app insert_by_key].
  destruct (Nat.leb_spec (key x) (key y)) as [Hle|_]; [lia|]. rewrite IH. reflexivity.
Qed.

Lemma insert_by_key_permutation {A} (key : A -> nat) x l :
  Permutation (insert_by_key key x l) (x :: l).
Proof.
  drop_builtins.
  induction l as [|y rest IH]; [reflexivity|].
  cbn [insert_by_key]. destruct (key x <=? key y)%nat; [reflexivity|].
  rewrite IH. apply Permutation_swap.
Qed.

Lemma get_recommendation_priority_range lower recommendation :
  get_recommendation_priority lower recommendation = 1 \/
  get_recommendation_priority lower recommendation = 2 \/
  get_recommendation_priority lower recommendation = 3.
Proof.
  drop_builtins.
  unfold get_recommendation_priority.
  repeat match goal with
    | |- context [if ?c then _ else _] => destruct c
    end; tauto.
Qed.

(** X14. Sorting by priority groups the recommendations: first those of
    priority 1 (a high-priority keyword occurs in the lowercased text),
    then those of priority 2 (no high-priority keyword, a medium one),
    then the others, each group in its original order. The result is a
    permutation of the input. *)
Theorem sort_by_priority_groups lower recommendations :
  let priority := get_recommendation_priority lower in
  sort_recommendations_by_priority lower recommendations =
    filter (fun r => priority r = 1) recommendations ++
    filter (fun r => priority r = 2) recommendations ++
    filter (fun r => priority r = 3) recommendations /\
  Permutation (sort_recommendations_by_priority lower recommendations) recommendations.
Proof.
  drop_builtins.
  intros priority. unfold sort_recommendations_by_priority. fold priority. split.
  - induction recommendations as [|x rest IH]; [reflexivity|].
    cbn [py_sorted]. rewrite IH.
    assert (forall k, Forall (fun y => priority y = k)
                        (filter (fun r => priority r = k) rest)) as Hk.
    { intros k. apply Forall_forall. intros y Hy.
      apply list_elem_of_filter in Hy as [Hy _]. exact Hy. }
    pose proof (Hk 1) as H1. pose proof (Hk 2) as H2. pose proof (Hk 3) as H3.
    destruct (get_recommendation_priority_range lower x) as [Hx | [Hx | Hx]];
      fold priority in Hx.
    + rewrite (filter_cons_True _ x) by exact Hx.
      rewrite !(filter_cons_False _ x) by (rewrite Hx; discriminate).
      apply insert_by_key_front. rewrite !Forall_app. repeat split;
        eapply Forall_impl; eauto; cbn; intros y Hy; rewrite Hx, Hy; lia.
    + rewrite (filter_cons_False _ x) by (rewrite Hx; discriminate).
      rewrite (filter_cons_True _ x) by exact Hx.
      rewrite (filter_cons_False _ x) by (rewrite Hx; discriminate).
      rewrite insert_by_key_pass
        by (eapply Forall_impl; [exact H1|]; cbn; intros y Hy; rewrite Hx, Hy; lia).
      f_equal. apply insert_by_key_front. rewrite !Forall_app. split;
        eapply Forall_impl; eauto; cbn; intros y Hy; rewrite Hx, Hy; lia.
    + rewrite !(filter_cons_False _ x) by (rewrite Hx; discriminate).
      rewrite (filter_cons_True _ x) by exact Hx.
      rewrite insert_by_key_pass
        by (eapply Forall_impl; [exact H1|]; cbn; intros y Hy; rewrite Hx, Hy; lia).
      f_equal.
      rewrite insert_by_key_pass
        by (eapply Forall_impl; [exact H2|]; cbn; intros y Hy; rewrite Hx, Hy; lia).
      f_equal. apply insert_by_key_front.
      eapply Forall_impl; [exact H3|]; cbn; intros y Hy; rewrite Hx, Hy; lia.
  - induction recommendations as [|x rest IH]; [reflexivity|].
    cbn [py_sorted]. rewrite insert_by_key_permutation, IH. reflexivity.
Qed.

Lemma float_ge_1_gt_0 (f : float) :
  (1 <=? f)%float = true -> (Z2F 0 <? f)%float = true.
Proof.
  drop_builtins.
  replace (Z2F 0) with 0%float by (vm_compute; reflexivity).
  rewrite leb_spec, ltb_spec. unfold SFleb, SFltb.
  let v := eval vm_compute in (Prim2SF 1) in change (Prim2SF 1) with v.
  let v := eval vm_compute in (Prim2SF 0) in change (Prim2SF 0) with v.
  destruct (Prim2SF f) as [s|s| |s m e]; cbn [SFcompare];
    try (destruct s); try (simpl; congruence).
Qed.

(** X15. A request that passed the validation of [DiagnosisRequest] is
    analyzed in full: no rule raises, so the analyzer returns what the
    ten rules emit. Its job satisfaction is at least 1, so the guard
    [job_satisfaction > 0] of the rule always holds and the low job
    satisfaction is reported exactly when the rating is at most 2. *)
Theorem valid_request_is_analyzed_in_full request :
  valid_request request = true ->
  analyze_risk_factors request = flat_map (fun rule => emitted_by rule request) risk_rules /\
  exists rating,
    request !! "job_satisfaction" = Some (VFloat rating) /\
    ((rating <=? 2)%float = true ->
       exists description,
         emitted_by rule_job_satisfaction request =
         [risk_factor_entry "Low Job Satisfaction" (VFloat rating) "Medium" description]) /\
    ((rating <=? 2)%float = false ->
       emitted_by rule_job_satisfaction request = []).
Proof.
  intros Hv.
  assert (raw_numbers_ok request = true) as Hok.
  { unfold raw_numbers_ok, compared_fields. apply forallb_forall. intros k Hk.
    assert (exists lo hi, float_field request k lo hi = true) as (lo & hi & Hf).
    { unfold valid_request in Hv. rewrite !andb_true_iff in Hv. cbn [In] in Hk.
      repeat destruct Hk as [<- | Hk]; try destruct Hk; do 2 eexists; apply Hv. }
    apply float_field_value in Hf as [f Hf]. rewrite Hf. reflexivity. }
  split; [apply (analyze_well_typed request Hok)|].
  assert (float_field request "job_satisfaction" 1 5 = true) as Hjs.
  { unfold valid_request in Hv. rewrite !andb_true_iff in Hv. apply Hv. }
  unfold float_field in Hjs.
  destruct (request !! "job_satisfaction") as [[| |rating|]|] eqn:E; try discriminate Hjs.
  apply andb_true_iff in Hjs as [Hlo _]. apply float_ge_1_gt_0 in Hlo.
  exists rating. split; [reflexivity|].
  unfold emitted_by, rule_job_satisfaction, dict_get. rewrite E.
  cbn [from_option id py_le_int py_gt_int mbind result_bind].
  replace (Z2F 2) with 2%float by (vm_compute; reflexivity).
  split; intros ->; cbn [mbind result_bind]; [|reflexivity].
  rewrite Hlo. cbn [mbind result_bind]. eexists. reflexivity.
Qed.

End Pipeline.

(** ** The theorems at concrete inputs *)

(** The scenario end to end: the stored score, and the ten strings kept
    out of the fifteen collected at probability 0.71. *)
Example scenario_risk_score :
  match preprocess sample_float_of_str scenario_raw with
  | Ok processed => processed !! "Risk_Score"
  | Raise _ => None
  end = Some (VFloat 2.8000000000000003).
Proof. vm_compute. reflexivity. Qed.

Example scenario_recommendations :
  let risk_factors := analyze_risk_factors sample_float_repr scenario_raw in
  (recommendations ← collect_recommendations 0.71 risk_factors;
   Ok (length recommendations)) = Ok 15 /\
  generate_recommendations scenario_raw 0.71 risk_factors =
    ["Seek immediate professional help from a mental health counselor or therapist";
     "Consider reaching out to a trusted friend or family member for support";
     "Contact a mental health helpline if you're in crisis";
     "Consider academic counseling or tutoring to manage study stress";
     "Break down large assignments into smaller, manageable tasks";
     "Seek financial counseling or speak with a financial advisor";
     "Look into scholarships, grants, or part-time work opportunities";
     "Establish a consistent sleep schedule and bedtime routine";
     "Avoid screens 1 hour before bedtime and create a relaxing environment";
     "Focus on a balanced diet with regular meals"].
Proof. split; vm_compute; reflexivity. Qed.

Lemma risk_score_linear_formula_witness :
  has_number scenario_processed "Academic Pressure" 5 /\
  has_number scenario_processed "Financial Stress" 5 /\
  has_number scenario_processed "Sleep_Hours" 4 /\
  has_number scenario_processed "Diet_Score" 1 /\
  has_number scenario_processed "Have you ever had suicidal thoughts ?_encoded" 1 /\
  has_number scenario_processed "Family History of Mental Illness_encoded" 1 /\
  _calculate_risk_score scenario_processed = 2.8000000000000003%float.
Proof.
  assert (H1 : has_number scenario_processed "Academic Pressure" 5)
    by (right; vm_compute; reflexivity).
  assert (H2 : has_number scenario_processed "Financial Stress" 5)
    by (right; vm_compute; reflexivity).
  assert (H3 : has_number scenario_processed "Sleep_Hours" 4)
    by (left; vm_compute; reflexivity).
  assert (H4 : has_number scenario_processed "Diet_Score" 1)
    by (left; vm_compute; reflexivity).
  assert (H5 : has_number scenario_processed "Have you ever had suicidal thoughts ?_encoded" 1)
    by (left; vm_compute; reflexivity).
  assert (H6 : has_number scenario_processed "Family History of Mental Illness_encoded" 1)
    by (left; vm_compute; reflexivity).
  repeat (split; [assumption|]).
  exact (proj1 (proj2 (proj1 (risk_score_linear_formula sample_float_of_str)
                         scenario_processed H1 H2 H3 H4 H5 H6))).
Defined.

(** The features of the claim give a score that is not the float 2.8. *)
Lemma risk_score_differs_from_2_8 :
  has_number scenario_processed "Academic Pressure" 5 /\
  has_number scenario_processed "Financial Stress" 5 /\
  has_number scenario_processed "Sleep_Hours" 4 /\
  has_number scenario_processed "Diet_Score" 1 /\
  has_number scenario_processed "Have you ever had suicidal thoughts ?_encoded" 1 /\
  has_number scenario_processed "Family History of Mental Illness_encoded" 1 /\
  _calculate_risk_score scenario_processed <> 2.8%float.
Proof.
  repeat (split; [first [left; vm_compute; reflexivity | right; vm_compute; reflexivity]|]).
  intros H. apply (f_equal Prim2SF) in H. vm_compute in H. discriminate H.
Qed.

(** No expected feature is present, and [predict] returns a prediction. *)
Lemma predict_accepts_missing_features :
  Forall (fun feature => (∅ : dict) !! feature = None) (feature_columns sample_predictor) /\
  predict sample_predictor ∅ = Ok (0%Z, 0.5%float).
Proof.
  split.
  - apply Forall_forall. intros feature _. apply lookup_empty.
  - vm_compute. reflexivity.
Qed.

Lemma labels_follow_probability_bands_witness :
  (0 <=? 0.5)%float = true /\ (0.5 <=? 1)%float = true /\
  (risk_level_label 0.5 = "Medium" <->
     (0.4 <? 0.5)%float = true /\ (0.5 <=? 0.7)%float = true).
Proof.
  split; [reflexivity|]. split; [reflexivity|].
  exact (proj1 (proj2 (proj2 (proj2 (proj2
    (proj1 (labels_follow_probability_bands sample_float_of_str sample_float_repr)
       0.5%float eq_refl eq_refl)))))).
Defined.


Lemma preprocess_fills_every_feature_witness :
  valid_request sample_request = true /\
  exists processed,
    preprocess sample_float_of_str sample_request = Ok processed /\
    forall name, name ∈ default_feature_columns -> is_Some (processed !! name).
Proof.
  assert (H : valid_request sample_request = true) by (vm_compute; reflexivity).
  split; [exact H|].
  exact (proj1 (preprocess_fills_every_feature sample_float_of_str) sample_request H).
Defined.

Lemma scenario_six_factors_in_rule_order_witness :
  map factor_and_impact (analyze_risk_factors sample_float_repr scenario_raw) =
    [(VStr "High Academic Pressure", VStr "High");
     (VStr "High Financial Stress", VStr "High");
     (VStr "Insufficient Sleep", VStr "High");
     (VStr "Unhealthy Diet", VStr "Medium");
     (VStr "History of Suicidal Thoughts", VStr "Critical");
     (VStr "Family History of Mental Illness", VStr "Medium")].
Proof.
  apply (proj1 (scenario_six_factors_in_rule_order sample_float_repr) scenario_raw);
    first [ left; vm_compute; reflexivity
          | right; vm_compute; reflexivity
          | vm_compute; reflexivity ].
Defined.

Lemma risk_score_degrades_to_zero_witness :
  risk_score_sum malformed_processed = Raise TypeError /\
  _calculate_risk_score malformed_processed = 0%float.
Proof.
  assert (H : risk_score_sum malformed_processed = Raise TypeError)
    by (vm_compute; reflexivity).
  split; [exact H|].
  exact (proj1 (risk_score_degrades_to_zero sample_float_of_str)
           malformed_processed TypeError H).
Defined.

Lemma analyze_empty_on_any_error_witness :
  rule_cgpa sample_float_repr ∈ risk_rules sample_float_repr /\
  raises (rule_cgpa sample_float_repr malformed_cgpa_raw) = true /\
  analyze_risk_factors sample_float_repr malformed_cgpa_raw = [].
Proof.
  assert (H1 : rule_cgpa sample_float_repr ∈ risk_rules sample_float_repr).
  { unfold risk_rules. rewrite !elem_of_cons. do 9 right. left. reflexivity. }
  assert (H2 : raises (rule_cgpa sample_float_repr malformed_cgpa_raw) = true)
    by (vm_compute; reflexivity).
  split; [exact H1|]. split; [exact H2|].
  exact (proj1 (analyze_empty_on_any_error sample_float_repr)
           malformed_cgpa_raw (rule_cgpa sample_float_repr) H1 H2).
Defined.

(** The rule on academic pressure emits an entry, the rule on the CGPA
    raises, and the analyzer returns nothing: the entry is lost. *)
Lemma analyze_drops_emitted_factors :
  rule_academic_pressure sample_float_repr malformed_cgpa_raw =
    Ok [risk_factor_entry "High Academic Pressure" (VInt 5) "High"
          "Academic pressure level of 5/5 indicates significant stress"] /\
  rule_cgpa sample_float_repr malformed_cgpa_raw = Raise TypeError /\
  analyze_risk_factors sample_float_repr malformed_cgpa_raw = [] /\
  ~ (forall risk_factor,
       risk_factor ∈ emitted_by (rule_academic_pressure sample_float_repr) malformed_cgpa_raw ->
       risk_factor ∈ analyze_risk_factors sample_float_repr malformed_cgpa_raw).
Proof.
  assert (E : analyze_risk_factors sample_float_repr malformed_cgpa_raw = [])
    by (vm_compute; reflexivity).
  repeat split; try (vm_compute; reflexivity).
  intros H. rewrite E in H.
  eapply not_elem_of_nil, H. unfold emitted_by.
  replace (rule_academic_pressure sample_float_repr malformed_cgpa_raw)
    with (Ok [risk_factor_entry "High Academic Pressure" (VInt 5) "High"
                "Academic pressure level of 5/5 indicates significant stress"])
    by (vm_compute; reflexivity).
  left.
Qed.

Lemma preprocess_propagates_coercion_error_witness :
  "age" ∈ numerical_features /\
  malformed_age_raw !! "age" = Some VNone /\
  py_float sample_float_of_str VNone = Raise TypeError /\
  exists e',
    preprocess sample_float_of_str malformed_age_raw = Raise e' /\
    exists feature' v',
      feature' ∈ numerical_features /\
      malformed_age_raw !! feature' = Some v' /\
      py_float sample_float_of_str v' = Raise e'.
Proof.
  assert (H1 : "age" ∈ numerical_features) by (unfold numerical_features; left).
  assert (H2 : malformed_age_raw !! "age" = Some VNone) by (vm_compute; reflexivity).
  assert (H3 : py_float sample_float_of_str VNone = Raise TypeError) by reflexivity.
  split; [exact H1|]. split; [exact H2|]. split; [exact H3|].
  exact (preprocess_propagates_coercion_error sample_float_of_str
           malformed_age_raw "age" VNone TypeError H1 H2 H3).
Defined.

(** ** The further properties at concrete inputs *)

Lemma preprocess_reads_its_fields_only_witness :
  (forall k, k ∈ preprocess_fields -> sample_request !! k = relocated_request !! k) /\
  preprocess sample_float_of_str sample_request =
  preprocess sample_float_of_str relocated_request.
Proof.
  assert (forall k, k ∈ preprocess_fields ->
            sample_request !! k = relocated_request !! k) as H.
  { intros k Hk. unfold preprocess_fields, numerical_features in Hk. cbn [app] in Hk.
    rewrite !elem_of_cons, elem_of_nil in Hk.
    repeat destruct Hk as [-> | Hk]; try destruct Hk; vm_compute; reflexivity. }
  split; [exact H|].
  exact (preprocess_reads_its_fields_only sample_float_of_str
           sample_request relocated_request H).
Defined.


Lemma preprocess_score_is_never_the_fallback_witness :
  exists processed base score,
    preprocess sample_float_of_str sample_request = Ok processed /\
    copy_numerical sample_float_of_str sample_request numerical_features ∅ = Ok base /\
    risk_score_sum (encode_categorical sample_request base) = Ok score /\
    processed !! "Risk_Score" = Some (VFloat score).
Proof.
  destruct (preprocess_returns sample_float_of_str sample_request) as [processed Hp].
  { intros feature Hin. apply elem_of_numerical_features in Hin.
    repeat destruct Hin as [-> | Hin]; try subst feature; vm_compute; reflexivity. }
  destruct (preprocess_score_is_never_the_fallback sample_float_of_str
              sample_request processed Hp) as (base & score & H).
  exists processed, base, score. split; [exact Hp | exact H].
Defined.

Lemma predict_reads_its_columns_only_witness :
  (forall feature, feature ∈ feature_columns sample_predictor ->
     scenario_processed !! feature = annotated_processed !! feature) /\
  predict sample_predictor scenario_processed =
  predict sample_predictor annotated_processed.
Proof.
  assert (forall feature, feature ∈ feature_columns sample_predictor ->
            scenario_processed !! feature = annotated_processed !! feature) as H.
  { intros feature Hin. cbn [feature_columns sample_predictor] in Hin.
    unfold default_feature_columns in Hin. rewrite !elem_of_cons, elem_of_nil in Hin.
    repeat destruct Hin as [-> | Hin]; try destruct Hin; vm_compute; reflexivity. }
  split; [exact H|].
  exact (predict_reads_its_columns_only sample_predictor
           scenario_processed annotated_processed H).
Defined.

Lemma preprocess_output_needs_no_default_witness :
  exists processed,
    preprocess sample_float_of_str sample_request = Ok processed /\
    length (build_feature_vector default_feature_columns processed) = 15 /\
    Forall2 (fun feature v => processed !! feature = Some v)
      default_feature_columns
      (build_feature_vector default_feature_columns processed).
Proof.
  destruct (preprocess_returns sample_float_of_str sample_request) as [processed Hp].
  { intros feature Hin. apply elem_of_numerical_features in Hin.
    repeat destruct Hin as [-> | Hin]; try subst feature; vm_compute; reflexivity. }
  exists processed. split; [exact Hp|].
  exact (preprocess_output_needs_no_default sample_float_of_str
           sample_request processed Hp).
Defined.




Lemma diagnose_outcomes_witness :
  valid_request sample_request = true /\
  exists processed_data,
    preprocess sample_float_of_str sample_request = Ok processed_data /\
    diagnose sample_float_of_str sample_float_repr (Some sample_predictor) true
      "2025-01-01T00:00:00" sample_request =
    match predict sample_predictor processed_data with
    | Ok (class, probability) =>
        if (0 <=? probability)%float && (probability <=? 1)%float then
          inr {| prediction := class; probability := probability;
                 confidence := confidence_label probability;
                 risk_level := risk_level_label probability;
                 risk_factors := analyze_risk_factors sample_float_repr sample_request;
                 recommendations :=
                   generate_recommendations sample_request probability
                     (analyze_risk_factors sample_float_repr sample_request);
                 timestamp := "2025-01-01T00:00:00" |}
        else inl 400%Z
    | Raise ValueError => inl 400%Z
    | Raise _ => inl 500%Z
    end.
Proof.
  assert (valid_request sample_request = true) as H by (vm_compute; reflexivity).
  split; [exact H|].
  exact (proj2 (proj2 (diagnose_outcomes sample_float_of_str sample_float_repr))
           sample_predictor "2025-01-01T00:00:00" sample_request H).
Defined.

Lemma make_prediction_none_on_uncoercible_answer_witness :
  "job_satisfaction" ∈ numerical_features /\
  test_sample_data !! "job_satisfaction" = Some (VStr "Not Applicable") /\
  raises (py_float sample_float_of_str (VStr "Not Applicable")) = true /\
  make_prediction sample_float_of_str sample_float_repr (Some sample_predictor)
    "2025-01-01T00:00:00" test_sample_data = None.
Proof.
  assert ("job_satisfaction" ∈ numerical_features) as H1.
  { unfold numerical_features. rewrite !elem_of_cons. do 5 right. left. reflexivity. }
  assert (test_sample_data !! "job_satisfaction" = Some (VStr "Not Applicable")) as H2
    by (vm_compute; reflexivity).
  assert (raises (py_float sample_float_of_str (VStr "Not Applicable")) = true) as H3
    by reflexivity.
  split; [exact H1|]. split; [exact H2|]. split; [exact H3|].
  exact (make_prediction_none_on_uncoercible_answer sample_float_of_str sample_float_repr
           (Some sample_predictor) "2025-01-01T00:00:00" test_sample_data
           "job_satisfaction" (VStr "Not Applicable") H1 H2 H3).
Defined.

Lemma validate_answers_lists_unanswered_witness :
  Forall (fun question => is_Some (question !! "id") /\ is_Some (question !! "type"))
    sample_questions /\
  validate_answers sample_answers sample_questions =
    Ok (map (fun question => dict_get question "id" VNone)
          (List.filter (fun question => negb (is_answered sample_answers question))
             sample_questions)).
Proof.
  assert (Forall (fun question => is_Some (question !! "id") /\ is_Some (question !! "type"))
            sample_questions) as H.
  { unfold sample_questions. repeat constructor; eexists; vm_compute; reflexivity. }
  split; [exact H|].
  exact (proj1 (validate_answers_lists_unanswered sample_answers sample_questions H)).
Defined.

(** The empty city is reported, the age 0 is not. *)
Example validate_sample_answers :
  validate_answers sample_answers sample_questions = Ok [VStr "city"].
Proof. vm_compute. reflexivity. Qed.

Lemma valid_request_is_analyzed_in_full_witness :
  valid_request sample_request = true /\
  analyze_risk_factors sample_float_repr sample_request =
  flat_map (fun rule => emitted_by rule sample_request) (risk_rules sample_float_repr).
Proof.
  assert (valid_request sample_request = true) as H by (vm_compute; reflexivity).
  split; [exact H|].
  exact (proj1 (valid_request_is_analyzed_in_full sample_float_repr sample_request H)).
Defined.
